(** * r53_record_cleanup: a shallow embedding of [r53_record_cleanup.py]

    The script prunes alias records of a Route 53 hosted zone.  The
    embedding follows the Python text function by function:

    - strings are [string], Python integers are [Z], Python lists are [list];
    - a resource record set (a Python dict) is the record [record], its
      optional ['AliasTarget'] key an [option];
    - the module-level list [KEEP_LIST] is passed explicitly;
    - the file system is a [gmap] from paths to file contents, and every
      effect that leaves the process (file creation, write, rename,
      change-batch submission) is appended to an event log;
    - exceptions and [exit(1)] are the error cases of [outcome];
    - the [while] loops run on fuel;
    - the interpreter is a parameter: the text runs under Python 2 and
      under Python 3, and the two differ, for this program, in what a file
      opened in binary mode does with a [str];
    - logging is left out: the [logging] calls, the console handler and the
      rotating log file [r53-record-cleanup.log] of the script are not part
      of [world], whose [files] are the files other than that log. *)

From Stdlib Require Import ZArith List Ascii String Lia Bool.
From stdpp Require Import base gmap strings list pretty.

Local Open Scope Z_scope.

(** ** Python primitives *)

Module Py.

(** [s.endswith(suffix)] *)
Definition endswith (s suffix : string) : bool :=
  let n := String.length s in
  let k := String.length suffix in
  if (k <=? n)%nat then String.eqb (substring (n - k) k s) suffix else false.

(** [x in l] on a list of strings *)
Fixpoint contains (x : string) (l : list string) : bool :=
  match l with
  | [] => false
  | y :: l' => if String.eqb x y then true else contains x l'
  end.

(** [len(l)] *)
Definition len {A} (l : list A) : Z := Z.of_nat (length l).

(** One bound of [l[start:stop:1]]: negative bounds count from the end,
    and the result is clamped to [0 .. len(l)]. *)
Definition clamp (n i : Z) : Z :=
  let i' := if i <? 0 then i + n else i in
  if i' <? 0 then 0 else if n <? i' then n else i'.

(** [l[start:stop:1]] *)
Definition slice {A} (l : list A) (start stop : Z) : list A :=
  let lo := clamp (len l) start in
  let hi := clamp (len l) stop in
  firstn (Z.to_nat (hi - lo)) (skipn (Z.to_nat lo) l).

(** [s.replace(old, new)] for a one-character [old] *)
Fixpoint replace (old : ascii) (new : string) (s : string) : string :=
  match s with
  | EmptyString => EmptyString
  | String c s' =>
      if Ascii.eqb c old then new +:+ replace old new s'
      else String c (replace old new s')
  end.

(** Truth value of a string that may be [None]: [None] and [''] are false. *)
Definition truthy (o : option string) : bool :=
  match o with
  | Some s => negb (String.eqb s "")
  | None => false
  end.

(** Truth value of a list that may be [None]. *)
Definition truthy_list {A} (o : option (list A)) : bool :=
  match o with
  | Some (_ :: _) => true
  | _ => false
  end.

End Py.

(** ** Data model *)

(** The ['AliasTarget'] sub-object of a resource record set. *)
Record alias_target := AliasTargetOf {
  HostedZoneId : string;
  DNSName : string;
  EvaluateTargetHealth : bool
}.

(** A resource record set as returned by [list_resource_record_sets]:
    ['Name'] and ['Type'] are always present, ['AliasTarget'] only on alias
    records; the remaining keys (['TTL'], ['ResourceRecords'], ...) are kept
    as uninterpreted key/value pairs. *)
Record record := RecordOf {
  Name : string;
  Type_ : string;
  AliasTarget : option alias_target;
  Others : list (string * string)
}.

(** A hosted zone descriptor: [zone['Id']], [zone['Name']]. *)
Record hosted_zone := ZoneOf {
  Id : string;
  ZName : string
}.

(** ** KEEP_LIST *)

(** [if not s.endswith('.'): s += '.'], as written at the top of
    [expand_keep_list], [get_hosted_zone_by_name] and [r53_cleanup]. *)
Definition with_dot (s : string) : string :=
  if negb (Py.endswith s ".") then s +:+ "." else s.

(** [expand_keep_list]: the new contents of the global [KEEP_LIST]. *)
Definition expand_keep_list (zone_name : string) (KEEP_LIST : list string)
  : list string :=
  let zone_name := with_dot zone_name in
  map (fun x => (x +:+ ".") +:+ zone_name) KEEP_LIST.

(** ** Change batches *)

Inductive action := UPSERT | DELETE.

(** The descriptor built for every record inside the batching loops. *)
Record resource_record_set := DescriptorOf {
  rrs_AliasTarget : alias_target;
  rrs_Type : string;
  rrs_Name : string
}.

Record change := ChangeOf {
  Action : action;
  ResourceRecordSet : resource_record_set
}.

Record change_batch := BatchOf {
  Comment : string;
  Changes : list change
}.

(** ** The outside world *)

(** One page of [list_resource_record_sets]; ['NextRecordName'] is only
    present on truncated pages. *)
Record page := PageOf {
  ResourceRecordSets : list record;
  IsTruncated : bool;
  NextRecordName : option string
}.

(** The Route 53 client.  [None] (resp. [false]) stands for the call
    raising [botocore.exceptions.ClientError]. *)
Record r53_client := ClientOf {
  list_hosted_zones : option (list hosted_zone);
  get_hosted_zone : string -> option hosted_zone;
  list_resource_record_sets : string -> option string -> option page;
  change_resource_record_sets : string -> change_batch -> bool
}.

(** Effects that leave the process, in the order they happen. *)
Inductive event :=
| EvCreate (path : string)
| EvWrite (path content : string)
| EvRename (src dst : string)
| EvChange (zone_id : string) (batch : change_batch).

Record world := WorldOf {
  files : gmap string string;
  events : list event
}.

Inductive exn := KeyError | IndexError | TypeError | OSError | YAMLError | SystemExit.

Inductive outcome (A : Type) :=
| Return (a : A)
| Raise (e : exn)
| OutOfFuel.
Arguments Return {A} a.
Arguments Raise {A} e.
Arguments OutOfFuel {A}.

(** Computations that read and write the world and may raise. *)
Definition M (A : Type) : Type := world -> outcome A * world.

Definition ret {A} (a : A) : M A := fun w => (Return a, w).

Definition raise {A} (e : exn) : M A := fun w => (Raise e, w).

Definition out_of_fuel {A} : M A := fun w => (OutOfFuel, w).

Definition bind {A B} (m : M A) (k : A -> M B) : M B :=
  fun w =>
    match m w with
    | (Return a, w') => k a w'
    | (Raise e, w') => (Raise e, w')
    | (OutOfFuel, w') => (OutOfFuel, w')
    end.

Notation "x <- m ;; k" := (bind m (fun x => k))
  (at level 100, m at next level, right associativity).
Notation "m ;;; k" := (bind m (fun _ => k))
  (at level 100, right associativity).

Definition emit (e : event) : M unit :=
  fun w => (Return tt, WorldOf (files w) (events w ++ [e])).

(** [record['AliasTarget']] *)
Definition get_AliasTarget (r : record) : M alias_target :=
  match AliasTarget r with
  | Some a => ret a
  | None => raise KeyError
  end.

(** [l[0]] *)
Definition first {A} (l : list A) : M A :=
  match l with
  | x :: _ => ret x
  | [] => raise IndexError
  end.

(** What [yaml.load] makes of the text of a snapshot file: a list of
    record dicts, [None] (the file is empty), or no value at all because the
    text is not YAML and [yaml.load] raises.  Documents of other shapes
    (scalars, mappings, lists of something else than record dicts) are not
    covered. *)
Inductive document :=
| DocRecords (records : list record)
| DocNone
| DocMalformed.

(** The interpreter that runs the script.  The repository does not fix it
    and the text is valid for both. *)
Inductive interpreter := Python2 | Python3.

(** The mode a file object was opened in. *)
Inductive file_mode := TextMode | BinaryMode.

(** [stream.write(text)] for a [str] [text].  Under Python 2 a [str] is a
    byte string and every file takes it; under Python 3 a file opened in
    binary mode refuses it with [TypeError] and only a text file appends
    it. *)
Definition write_str (python : interpreter) (stream : string * file_mode)
    (text : string) : M unit :=
  match python, stream.2 with
  | Python3, BinaryMode => raise TypeError
  | _, _ =>
      fun w =>
        match files w !! stream.1 with
        | Some old =>
            (Return tt,
             WorldOf (<[stream.1 := old +:+ text]> (files w))
                     (events w ++ [EvWrite stream.1 text]))
        | None => (Raise OSError, w)
        end
  end.

(** ** The program *)

Section Program.

(** The interpreter, the boto3 client, the text PyYAML's [safe_dump] emits
    for a record list, what [yaml.load] reads from a text, and the name
    handed out by [tempfile.NamedTemporaryFile]. *)
Variable python : interpreter.
Variable client : r53_client.
Variable safe_dump : list record -> string.
Variable safe_load : string -> document.
Variable temp_file_name : string.

(** [get_hosted_zone_list]: [result] stays [None] when the call raises. *)
Definition get_hosted_zone_list : option (list hosted_zone) :=
  list_hosted_zones client.

(** The [for zone in zone_list] loop of [get_hosted_zone_by_name]: a failed
    [get_hosted_zone] is logged and the scan goes on. *)
Fixpoint scan_zones (zone_name : string) (zone_list : list hosted_zone)
    (result : option hosted_zone) : option hosted_zone :=
  match zone_list with
  | [] => result
  | zone :: rest =>
      if String.eqb zone_name (ZName zone) then
        match get_hosted_zone client (Id zone) with
        | Some z => Some z
        | None => scan_zones zone_name rest result
        end
      else scan_zones zone_name rest result
  end.

Definition get_hosted_zone_by_name (zone_name : string) : option hosted_zone :=
  let zone_name := with_dot zone_name in
  let result := None in
  match get_hosted_zone_list with
  | Some zone_list =>
      match zone_list with
      | _ :: _ => scan_zones zone_name zone_list result
      | [] => result
      end
  | None => result
  end.

(** The [while isTruncated] loop of [get_all_records_in_zone].  A
    [ClientError] leaves the loop through the [except] clause, after which
    the function returns the accumulator. *)
Fixpoint fetch_pages (fuel : nat) (zone_id : string) (current_set : page)
    (resource_record_sets : list record) : outcome (list record) :=
  if IsTruncated current_set then
    match fuel with
    | O => OutOfFuel
    | S fuel' =>
        match NextRecordName current_set with
        | None => Raise KeyError
        | Some start_name =>
            match list_resource_record_sets client zone_id (Some start_name) with
            | None => Return resource_record_sets
            | Some current_set' =>
                fetch_pages fuel' zone_id current_set'
                  (resource_record_sets ++ ResourceRecordSets current_set')
            end
        end
    end
  else Return resource_record_sets.

Definition get_all_records_in_zone (fuel : nat) (zone_id : string)
  : outcome (list record) :=
  match list_resource_record_sets client zone_id None with
  | None => Return []
  | Some current_set =>
      fetch_pages fuel zone_id current_set ([] ++ ResourceRecordSets current_set)
  end.

(** The descriptor dict built from [record] and its alias target. *)
Definition descriptor (record : record) (a : alias_target) : resource_record_set :=
  DescriptorOf
    (AliasTargetOf (HostedZoneId a) (DNSName a) (EvaluateTargetHealth a))
    (Type_ record) (Name record).

(** The [for record in records_to_process] loop. *)
Fixpoint build_change_set (act : action) (records_to_process : list record)
    (change_set : list change) : M (list change) :=
  match records_to_process with
  | [] => ret change_set
  | record :: rest =>
      a <- get_AliasTarget record ;;
      build_change_set act rest (change_set ++ [ChangeOf act (descriptor record a)])
  end.

(** [r53_client.change_resource_record_sets(...)] inside its [try]:
    a [ClientError] ends in [exit(1)]. *)
Definition submit (zone_id : string) (change_batch : change_batch) : M unit :=
  emit (EvChange zone_id change_batch) ;;;
  if change_resource_record_sets client zone_id change_batch
  then ret tt else raise SystemExit.

Definition batch_size : Z := 100.

(** The [while records_processed < number_of_records] loop.  Its text is
    the same in [delete_records] and [restore_deleted_records] except for
    the action and the comment of the batch. *)
Fixpoint change_loop (fuel : nat) (act : action) (comment : string)
    (records : list record) (number_of_records start_record records_processed : Z)
    : M unit :=
  if records_processed <? number_of_records then
    match fuel with
    | O => out_of_fuel
    | S fuel' =>
        let end_record := start_record + batch_size in
        let end_record :=
          if end_record >? number_of_records then number_of_records else end_record in
        let records_to_process := Py.slice records start_record end_record in
        r0 <- first records_to_process ;;
        a0 <- get_AliasTarget r0 ;;
        let zone_id := HostedZoneId a0 in
        change_set <- build_change_set act records_to_process [] ;;
        submit zone_id (BatchOf comment change_set) ;;;
        change_loop fuel' act comment records number_of_records
          end_record (records_processed + (end_record - start_record))
    end
  else ret tt.

Definition delete_records (fuel : nat) (record_list : list record) : M unit :=
  change_loop fuel DELETE "Deleting resource records"
    record_list (Py.len record_list) 0 0.

(** [os.path.exists(file_path)] *)
Definition exists_ (file_path : string) : M bool :=
  fun w => (Return (bool_decide (is_Some (files w !! file_path))), w).

(** [yaml.load(open(file_path, 'r'), yaml.SafeLoader)] *)
Definition load_file (file_path : string) : M document :=
  fun w =>
    match files w !! file_path with
    | Some content =>
        match safe_load content with
        | DocMalformed => (Raise YAMLError, w)
        | doc => (Return doc, w)
        end
    | None => (Raise OSError, w)
    end.

(** [len(records)] raises [TypeError] when [records] is [None]. *)
Definition restore_deleted_records (fuel : nat) (file_path : string) : M unit :=
  ok <- exists_ file_path ;;
  if negb ok then raise SystemExit
  else
    doc <- load_file file_path ;;
    match doc with
    | DocRecords records =>
        change_loop fuel UPSERT "Restoring resource records"
          records (Py.len records) 0 0
    | _ => raise TypeError
    end.

(** The branch a record takes in the filter of [r53_cleanup], named after
    the message it logs. *)
Inductive decision :=
| SkipZone
| ToBeDeleted
| SkipAliasMismatch
| SkipNoAlias
| SkipKeepList
| SkipType.

(** The body of [for record in record_set]. *)
Definition classify (zone : hosted_zone) (KEEP_LIST : list string)
    (target_alias : string) (record : record) : decision :=
  let record_name := Name record in
  let record_type := Type_ record in
  if String.eqb record_type "A" then
    if String.eqb record_name (ZName zone) then SkipZone
    else if negb (Py.contains record_name KEEP_LIST) then
      match AliasTarget record with
      | Some a =>
          let dns_name := DNSName a in
          if String.eqb dns_name target_alias then ToBeDeleted
          else SkipAliasMismatch
      | None => SkipNoAlias
      end
    else SkipKeepList
  else SkipType.

(** The filter loop; the state is [to_delete]. *)
Fixpoint filter_loop (zone : hosted_zone) (KEEP_LIST : list string)
    (target_alias : string) (record_set : list record) (to_delete : list record)
    : list record :=
  match record_set with
  | [] => to_delete
  | record :: rest =>
      match classify zone KEEP_LIST target_alias record with
      | ToBeDeleted =>
          filter_loop zone KEEP_LIST target_alias rest (to_delete ++ [record])
      | _ => filter_loop zone KEEP_LIST target_alias rest to_delete
      end
  end.

(** Lines 175-199 of [r53_cleanup]: normalise the alias, then filter. *)
Definition candidates (zone : hosted_zone) (KEEP_LIST : list string)
    (target_alias : string) (record_set : list record) : list record :=
  let target_alias := with_dot target_alias in
  filter_loop zone KEEP_LIST target_alias record_set [].

(** [tempfile.NamedTemporaryFile(delete=False)]: a new, empty file, opened
    in the default mode ['w+b'] and kept when it is closed. *)
Definition NamedTemporaryFile : M (string * file_mode) :=
  fun w =>
    (Return (temp_file_name, BinaryMode),
     WorldOf (<[temp_file_name := ""]> (files w))
             (events w ++ [EvCreate temp_file_name])).

(** [yaml.safe_dump(data, stream)]: the text of [data] is written to
    [stream] as [str]. *)
Definition dump_to (data : list record) (stream : string * file_mode) : M unit :=
  write_str python stream (safe_dump data).

(** [os.rename(src, dst)]: [dst] is replaced. *)
Definition rename (src dst : string) : M unit :=
  fun w =>
    match files w !! src with
    | Some content =>
        (Return tt,
         WorldOf (<[dst := content]> (delete src (files w)))
                 (events w ++ [EvRename src dst]))
    | None => (Raise OSError, w)
    end.

Definition lift {A} (o : outcome A) : M A := fun w => (o, w).

Definition r53_cleanup (fuel : nat) (KEEP_LIST : list string)
    (zone_name target_alias : string) (dryrun : bool) : M unit :=
  match get_hosted_zone_by_name zone_name with
  | None => raise TypeError
  | Some zone =>
      record_set <- lift (get_all_records_in_zone fuel (Id zone)) ;;
      let to_delete := candidates zone KEEP_LIST target_alias record_set in
      temp_file <- NamedTemporaryFile ;;
      dump_to to_delete temp_file ;;;
      let temp_file_yaml := temp_file.1 +:+ ".yaml" in
      rename temp_file.1 temp_file_yaml ;;;
      if negb dryrun then delete_records fuel to_delete else ret tt
  end.

End Program.

(** ** The script body *)

(** The namespace returned by [parser.parse_args()]. *)
Module Args.

Record t := Make {
  aws_access_key : option string;
  aws_secret_key : option string;
  zone_name : option string;
  target_alias : option string;
  keep_list : option (list string);
  restore_file : option string;
  verbose : bool;
  dryrun : bool
}.

End Args.

(** [KEEP_LIST = []] at module level. *)
Definition KEEP_LIST_initial : list string := [].

(** One of the two credential checks (lines 268-274 and 276-282, which
    differ in the key only): the new [os.environ], or [exit(1)]. *)
Definition check_credential (key : string) (arg : option string)
    (environ : gmap string string) : outcome (gmap string string) :=
  if negb (Py.truthy (environ !! key)) then
    if negb (Py.truthy arg) then Raise SystemExit
    else
      match arg with
      | Some v => Return (<[key := v]> environ)
      | None => Raise TypeError
      end
  else Return environ.

(** [for item in args.keep_list: KEEP_LIST.append(item.replace('*', "\\052"))] *)
Definition add_to_keep_list (KEEP_LIST : list string) (items : list string)
  : list string :=
  fold_left (fun K item => K ++ [Py.replace "*" "\052" item]) items KEEP_LIST.

Section Script.

Variable python : interpreter.
Variable client : r53_client.
Variable safe_dump : list record -> string.
Variable safe_load : string -> document.
Variable temp_file_name : string.

(** Lines 286-311: the dispatch between restore and cleanup. *)
Definition dispatch (fuel : nat) (args : Args.t) : M unit :=
  if Py.truthy (Args.restore_file args) then
    match Args.restore_file args with
    | Some file_path => restore_deleted_records client safe_load fuel file_path
    | None => raise TypeError
    end
  else
    if negb (Py.truthy (Args.zone_name args)) then raise SystemExit
    else if negb (Py.truthy (Args.target_alias args)) then raise SystemExit
    else
      match Args.zone_name args, Args.target_alias args with
      | Some zone_name, Some target_alias =>
          let KEEP_LIST := KEEP_LIST_initial in
          let KEEP_LIST :=
            if Py.truthy_list (Args.keep_list args) then
              match Args.keep_list args with
              | Some items => add_to_keep_list KEEP_LIST items
              | None => KEEP_LIST
              end
            else KEEP_LIST in
          let KEEP_LIST :=
            if Py.len KEEP_LIST >? 0 then expand_keep_list zone_name KEEP_LIST
            else KEEP_LIST in
          r53_cleanup python client safe_dump temp_file_name fuel KEEP_LIST
            zone_name target_alias (Args.dryrun args)
      | _, _ => raise TypeError
      end.

(** The [__main__] block after argument parsing and logging setup. *)
Definition main (fuel : nat) (environ : gmap string string) (args : Args.t)
  : M unit :=
  match check_credential "AWS_ACCESS_KEY_ID" (Args.aws_access_key args) environ with
  | Return environ =>
      match check_credential "AWS_SECRET_ACCESS_KEY" (Args.aws_secret_key args)
              environ with
      | Return _ => dispatch fuel args
      | Raise e => raise e
      | OutOfFuel => out_of_fuel
      end
  | Raise e => raise e
  | OutOfFuel => out_of_fuel
  end.

End Script.

(** ** Vocabulary of the properties *)

(** The candidate condition in the words of the specification. *)
Definition is_candidate (zone : hosted_zone) (KEEP_LIST : list string)
    (target_alias : string) (R : record) : bool :=
  String.eqb (Type_ R) "A"
  && negb (String.eqb (Name R) (ZName zone))
  && negb (Py.contains (Name R) KEEP_LIST)
  && match AliasTarget R with
     | Some a => String.eqb (DNSName a) (with_dot target_alias)
     | None => false
     end.

Definition decision_eqb (d1 d2 : decision) : bool :=
  match d1, d2 with
  | SkipZone, SkipZone | ToBeDeleted, ToBeDeleted
  | SkipAliasMismatch, SkipAliasMismatch | SkipNoAlias, SkipNoAlias
  | SkipKeepList, SkipKeepList | SkipType, SkipType => true
  | _, _ => false
  end.

(** [record] has the ['AliasTarget'] key. *)
Definition has_alias (r : record) : Prop := is_Some (AliasTarget r).

(** The descriptor [d] carries the name, type and alias target of [r]. *)
Definition describes (d : resource_record_set) (r : record) : Prop :=
  rrs_Name d = Name r /\ rrs_Type d = Type_ r
  /\ AliasTarget r = Some (rrs_AliasTarget d).

(** The change-batch calls of an event log, in the order they were made. *)
Fixpoint submissions (evs : list event) : list (string * change_batch) :=
  match evs with
  | [] => []
  | EvChange zone_id batch :: evs' => (zone_id, batch) :: submissions evs'
  | _ :: evs' => submissions evs'
  end.

Definition call_event (c : string * change_batch) : event := EvChange c.1 c.2.

(** The descriptors of a batch, in order. *)
Definition batch_descriptors (b : change_batch) : list resource_record_set :=
  map ResourceRecordSet (Changes b).

(** [l] cut into consecutive pieces of [k] elements, the last one shorter
    when [k] does not divide the length. *)
Fixpoint chunks_aux {A} (k fuel : nat) (l : list A) : list (list A) :=
  match fuel with
  | O => []
  | S fuel' =>
      match l with
      | [] => []
      | _ :: _ => take k l :: chunks_aux k fuel' (drop k l)
      end
  end.

Definition chunks {A} (k : nat) (l : list A) : list (list A) :=
  chunks_aux k (length l) l.

(** The call [c] submits the chunk [chunk]: one change per record, in
    order, with the given action and comment, to the zone of the alias
    target of the chunk's first record. *)
Definition submits (act : action) (comment : string)
    (c : string * change_batch) (chunk : list record) : Prop :=
  Comment c.2 = comment
  /\ Forall2 (fun ch r => Action ch = act /\ describes (ResourceRecordSet ch) r)
       (Changes c.2) chunk
  /\ exists r a rest,
       chunk = r :: rest /\ AliasTarget r = Some a /\ c.1 = HostedZoneId a.

(** The provider accepts the call. *)
Definition accepted (client : r53_client) (c : string * change_batch) : Prop :=
  change_resource_record_sets client c.1 c.2 = true.

(** The number of records of one batch, as a list length. *)
Definition chunk_len : nat := Z.to_nat batch_size.

(** What a run of the batching loop over the records [rest] leaves behind:
    the files are untouched, the new events are the calls for a prefix of
    the chunks of [rest], and the outcome tells where the run stopped. *)
Definition loop_post (client : r53_client) (act : action) (comment : string)
    (rest : list record) (fuel : nat) (w : world) (o : outcome unit) (w' : world)
    : Prop :=
  files w' = files w
  /\ exists calls cs,
      events w' = events w ++ map call_event calls
      /\ Forall2 (submits act comment) calls cs
      /\ cs `prefix_of` chunks chunk_len rest
      /\ match o with
         | Return _ => cs = chunks chunk_len rest /\ Forall (accepted client) calls
         | Raise KeyError =>
             ~ Forall has_alias rest /\ Forall (accepted client) calls
         | Raise SystemExit =>
             exists calls0 c,
               calls = calls0 ++ [c] /\ Forall (accepted client) calls0
               /\ ~ accepted client c
         | OutOfFuel => (fuel < length rest)%nat
         | Raise _ => False
         end.

(** The calls [calls] submit [records] in batches: [ceil(N/100)] calls, at
    most 100 changes each, every change with action [act], the descriptors
    of all batches in call order describing [records] in order, and the
    batch sizes those of the consecutive chunks. *)
Definition batched (act : action) (records : list record)
    (calls : list (string * change_batch)) : Prop :=
  Z.of_nat (length calls) = (Py.len records + 99) / 100
  /\ Forall (fun c => (length (Changes c.2) <= 100)%nat) calls
  /\ Forall (fun c => Forall (fun ch => Action ch = act) (Changes c.2)) calls
  /\ Forall2 describes (concat (map (fun c => batch_descriptors c.2) calls)) records
  /\ map (fun c => length (Changes c.2)) calls
     = map length (chunks chunk_len records).

(** The zone id of the call [c] is the one of the alias target of the first
    record of [chunk]. *)
Definition zone_of_first (c : string * change_batch) (chunk : list record) : Prop :=
  exists r a rest,
    chunk = r :: rest /\ AliasTarget r = Some a /\ c.1 = HostedZoneId a.

(** The provider answers the requests of one listing, starting at [cursor],
    with the truncated pages [ps], each naming the next cursor, and then
    with [last]: a final page, or [None] when that fetch raises. *)
Fixpoint answers (client : r53_client) (zone_id : string)
    (cursor : option string) (ps : list page) (last : option page) : Prop :=
  match ps with
  | [] =>
      list_resource_record_sets client zone_id cursor = last
      /\ match last with
         | Some p => IsTruncated p = false
         | None => True
         end
  | p :: ps' =>
      list_resource_record_sets client zone_id cursor = Some p
      /\ IsTruncated p = true
      /\ exists next,
           NextRecordName p = Some next
           /\ answers client zone_id (Some next) ps' last
  end.

(** The records of a sequence of pages. *)
Definition page_records (ps : list page) : list record :=
  concat (map ResourceRecordSets ps).

Definition last_records (last : option page) : list record :=
  match last with
  | Some p => ResourceRecordSets p
  | None => []
  end.

(** The world once [NamedTemporaryFile] has created the empty file [tmp]. *)
Definition after_temp_file (tmp : string) (w : world) : world :=
  WorldOf (<[tmp := ""]> (files w)) (events w ++ [EvCreate tmp]).

(** The world once [content] has been written to the file [tmp] and the
    file renamed to [tmp + '.yaml']. *)
Definition after_snapshot (tmp content : string) (w : world) : world :=
  WorldOf (<[tmp +:+ ".yaml" := content]>
             (delete tmp (<[tmp := content]> (<[tmp := ""]> (files w)))))
          (events w ++ [EvCreate tmp; EvWrite tmp content;
                        EvRename tmp (tmp +:+ ".yaml")]).

(** In the events [evs], every change-batch call comes after a write to
    [tmp] and, after that write, the rename of [tmp] to [tmp + '.yaml'];
    [written] and [renamed] tell what has happened before [evs]. *)
Fixpoint snapshot_first (tmp : string) (written renamed : bool)
    (evs : list event) : bool :=
  match evs with
  | [] => true
  | EvCreate _ :: evs' => snapshot_first tmp written renamed evs'
  | EvWrite path _ :: evs' =>
      snapshot_first tmp (written || String.eqb path tmp) renamed evs'
  | EvRename src dst :: evs' =>
      snapshot_first tmp written
        (renamed
         || (written && String.eqb src tmp && String.eqb dst (tmp +:+ ".yaml")))
        evs'
  | EvChange _ _ :: evs' => renamed && snapshot_first tmp written renamed evs'
  end.

(** [record] has the ['AliasTarget'] key, as a boolean. *)
Definition has_alias_b (r : record) : bool :=
  match AliasTarget r with
  | Some _ => true
  | None => false
  end.

(** The same call with another action and comment. *)
Definition same_call_but_action (c c' : string * change_batch) : Prop :=
  c.1 = c'.1 /\ batch_descriptors c.2 = batch_descriptors c'.2.

(** The change [ch] deletes a record of [record_set] that passes the filter. *)
Definition deletes_candidate (zone : hosted_zone) (KEEP_LIST : list string)
    (target_alias : string) (record_set : list record) (ch : change) : Prop :=
  Action ch = DELETE
  /\ exists R,
       In R record_set
       /\ is_candidate zone KEEP_LIST target_alias R = true
       /\ describes (ResourceRecordSet ch) R.

(** ** A concrete zone *)

Module Scenario.

Definition elb : alias_target :=
  AliasTargetOf "Z35SXDOTRQ7X7K" "old-elb.us-east-1.elb.amazonaws.com." false.

Definition rec_www : record := RecordOf "www.example.com." "A" (Some elb) [].

Definition rec_api : record := RecordOf "api.example.com." "A" (Some elb) [].

Definition rec_apex : record := RecordOf "example.com." "A" (Some elb) [].

Definition rec_mx : record :=
  RecordOf "example.com." "MX" None [("TTL", "300")].

Definition rec_plain : record :=
  RecordOf "host.example.com." "A" None [("TTL", "60")].

Definition the_zone : hosted_zone := ZoneOf "/hostedzone/Z1" "example.com.".

(** A provider that serves [rs] in one page and accepts every change. *)
Definition one_page_client (rs : list record) : r53_client :=
  ClientOf (Some [the_zone])
    (fun id => if String.eqb id "/hostedzone/Z1" then Some the_zone else None)
    (fun _ cursor =>
       match cursor with
       | None => Some (PageOf rs false None)
       | Some _ => None
       end)
    (fun _ _ => true).

(** Two pages, [rec_www] then [rec_api]. *)
Definition two_page_client : r53_client :=
  ClientOf (Some [the_zone])
    (fun id => if String.eqb id "/hostedzone/Z1" then Some the_zone else None)
    (fun _ cursor =>
       match cursor with
       | None => Some (PageOf [rec_www] true (Some "api.example.com."))
       | Some _ => Some (PageOf [rec_api] false None)
       end)
    (fun _ _ => true).

(** The same zone when the fetch of the second page raises. *)
Definition flaky_client : r53_client :=
  ClientOf (Some [the_zone])
    (fun id => if String.eqb id "/hostedzone/Z1" then Some the_zone else None)
    (fun _ cursor =>
       match cursor with
       | None => Some (PageOf [rec_www] true (Some "api.example.com."))
       | Some _ => None
       end)
    (fun _ _ => true).

(** 150 alias records. *)
Definition many_records : list record :=
  map (fun i => RecordOf (pretty i +:+ ".example.com.") "A" (Some elb) [])
      (seq 0 150).

(** A line-based stand-in for the YAML document of a record list without
    extra keys: a header line, then for each record its name, its type, and
    [-] or [+] followed by the three fields of the alias target. *)
Definition newline : string := String (ascii_of_nat 10) EmptyString.

Definition dump_record (r : record) : string :=
  Name r +:+ newline +:+ Type_ r +:+ newline +:+
  match AliasTarget r with
  | None => "-" +:+ newline
  | Some a =>
      "+" +:+ newline +:+ HostedZoneId a +:+ newline +:+ DNSName a +:+ newline
      +:+ (if EvaluateTargetHealth a then "true" else "false") +:+ newline
  end.

Definition toy_dump (rs : list record) : string :=
  "records" +:+ newline +:+ fold_right (fun r s => dump_record r +:+ s) "" rs.

(** The lines of [s], each ended by a newline; [cur] is the line read so far. *)
Fixpoint lines_of (s cur : string) : list string :=
  match s with
  | EmptyString => []
  | String c s' =>
      if Ascii.eqb c (ascii_of_nat 10) then cur :: lines_of s' ""
      else lines_of s' (cur +:+ String c EmptyString)
  end.

Fixpoint parse_records (ls : list string) : option (list record) :=
  match ls with
  | [] => Some []
  | name :: type :: flag :: rest =>
      if String.eqb flag "-" then
        option_map (cons (RecordOf name type None [])) (parse_records rest)
      else
        match rest with
        | hz :: dns :: b :: rest' =>
            option_map
              (cons (RecordOf name type
                       (Some (AliasTargetOf hz dns (String.eqb b "true"))) []))
              (parse_records rest')
        | _ => None
        end
  | _ => None
  end.

(** An empty text loads as [None], like an empty YAML file. *)
Definition toy_load (s : string) : document :=
  match lines_of s "" with
  | [] => DocNone
  | header :: ls =>
      if String.eqb header "records" then
        match parse_records ls with
        | Some rs => DocRecords rs
        | None => DocMalformed
        end
      else DocMalformed
  end.

Definition empty_world : world := WorldOf ∅ [].

(** A provider that rejects every change batch. *)
Definition rejecting_client (rs : list record) : r53_client :=
  ClientOf (Some [the_zone])
    (fun id => if String.eqb id "/hostedzone/Z1" then Some the_zone else None)
    (fun _ cursor =>
       match cursor with
       | None => Some (PageOf rs false None)
       | Some _ => None
       end)
    (fun _ _ => false).

(** The credentials in the environment, and a command line. *)
Definition with_keys : gmap string string :=
  {[ "AWS_ACCESS_KEY_ID" := "AKIAEXAMPLE"; "AWS_SECRET_ACCESS_KEY" := "secret" ]}.

Definition cleanup_args : Args.t :=
  Args.Make None None (Some "example.com")
    (Some "old-elb.us-east-1.elb.amazonaws.com") (Some ["api"; "*.dev"]) None
    false false.

Definition rec_wild : record :=
  RecordOf "\052.dev.example.com." "A" (Some elb) [].

End Scenario.

(** * Properties *)

(** ** Strings *)

Lemma append_cons (c : ascii) (s t : string) :
  String c s +:+ t = String c (s +:+ t).
Proof. reflexivity. Qed.

Lemma length_append (s t : string) :
  String.length (s +:+ t) = (String.length s + String.length t)%nat.
Proof.
  induction s as [|c s IH]; [reflexivity |].
  rewrite append_cons. simpl. now rewrite IH.
Qed.

Lemma append_assoc (s t u : string) : (s +:+ t) +:+ u = s +:+ (t +:+ u).
Proof.
  induction s as [|c s IH]; [reflexivity |].
  rewrite !append_cons. now rewrite IH.
Qed.

Lemma contains_In (x : string) (l : list string) :
  Py.contains x l = true <-> In x l.
Proof.
  induction l as [|y l IH]; simpl.
  - split; [discriminate | tauto].
  - destruct (String.eqb_spec x y) as [->|Hne].
    + split; auto.
    + rewrite IH. split; [auto | intros [Heq|Hin]; [congruence | exact Hin]].
Qed.

(** ** KEEP_LIST expansion *)

Lemma expand_keep_list_length (z : string) (l : list string) :
  length (expand_keep_list z l) = length l.
Proof. unfold expand_keep_list. apply length_map. Qed.

Lemma expand_keep_list_twice (z : string) (l : list string) :
  expand_keep_list z (expand_keep_list z l)
  = map (fun x => ((x +:+ ".") +:+ with_dot z) +:+ "." +:+ with_dot z) l.
Proof.
  unfold expand_keep_list. cbv zeta. rewrite map_map. apply map_ext. intros x.
  cbv beta. now rewrite (append_assoc (_ +:+ with_dot z) "." (with_dot z)).
Qed.

(** C6, as stated, fails: a second expansion appends the zone name again. *)
Lemma expand_keep_list_not_idempotent :
  expand_keep_list "example.com" (expand_keep_list "example.com" ["www"])
  = ["www.example.com..example.com."]
  /\ expand_keep_list "example.com" ["www"] = ["www.example.com."]
  /\ ~ (forall (KEEP_LIST : list string) (zone_name : string),
         expand_keep_list zone_name (expand_keep_list zone_name KEEP_LIST)
         = expand_keep_list zone_name KEEP_LIST).
Proof.
  split; [reflexivity | split; [reflexivity |]].
  intros H. specialize (H ["www"] "example.com"). vm_compute in H. discriminate H.
Qed.

(** C6, amended: every application of [expand_keep_list] appends
    ['.' + zone_name] (with the trailing dot enforced) to every entry, so a
    second application with the same zone name appends it a second time; the
    two results agree only on the empty keep list. *)
Theorem expand_keep_list_appends_again (KEEP_LIST : list string) (zone_name : string) :
  expand_keep_list zone_name (expand_keep_list zone_name KEEP_LIST)
  = map (fun x => ((x +:+ ".") +:+ with_dot zone_name) +:+ "." +:+ with_dot zone_name)
        KEEP_LIST
  /\ (expand_keep_list zone_name (expand_keep_list zone_name KEEP_LIST)
      = expand_keep_list zone_name KEEP_LIST <-> KEEP_LIST = []).
Proof.
  split; [apply expand_keep_list_twice |].
  split; [| intros ->; reflexivity].
  destruct KEEP_LIST as [|x l]; [reflexivity |].
  rewrite expand_keep_list_twice. unfold expand_keep_list. simpl.
  intros H. injection H as H _. apply (f_equal String.length) in H.
  rewrite !length_append in H. simpl in H. lia.
Qed.

(** ** The record filter *)

Section Filter.

Variables (zone : hosted_zone) (KEEP_LIST : list string) (target_alias : string).

(** What each branch of the filter body means, in source order. *)
Lemma classify_cases (R : record) :
  let d := classify zone KEEP_LIST (with_dot target_alias) R in
  (d = SkipType <-> Type_ R <> "A")
  /\ (d = SkipZone <-> Type_ R = "A" /\ Name R = ZName zone)
  /\ (d = SkipKeepList <->
        Type_ R = "A" /\ Name R <> ZName zone /\ In (Name R) KEEP_LIST)
  /\ (d = SkipNoAlias <->
        Type_ R = "A" /\ Name R <> ZName zone /\ ~ In (Name R) KEEP_LIST
        /\ AliasTarget R = None)
  /\ (d = SkipAliasMismatch <->
        Type_ R = "A" /\ Name R <> ZName zone /\ ~ In (Name R) KEEP_LIST
        /\ exists a, AliasTarget R = Some a /\ DNSName a <> with_dot target_alias)
  /\ (d = ToBeDeleted <->
        Type_ R = "A" /\ Name R <> ZName zone /\ ~ In (Name R) KEEP_LIST
        /\ exists a, AliasTarget R = Some a /\ DNSName a = with_dot target_alias).
Proof.
  unfold classify. cbv zeta.
  destruct (String.eqb_spec (Type_ R) "A") as [Ht|Ht].
  2: { repeat split; try discriminate; try tauto. }
  destruct (String.eqb_spec (Name R) (ZName zone)) as [Hn|Hn].
  { repeat split; try discriminate; try tauto. }
  destruct (Py.contains (Name R) KEEP_LIST) eqn:Hk; simpl.
  { apply contains_In in Hk. repeat split; try discriminate; try tauto. }
  assert (Hk' : ~ In (Name R) KEEP_LIST).
  { rewrite <- contains_In, Hk. discriminate. }
  destruct (AliasTarget R) as [a|] eqn:Ha.
  2: { repeat split; try discriminate; try tauto;
       intros (_ & _ & _ & a & Hc & _); discriminate Hc. }
  destruct (String.eqb_spec (DNSName a) (with_dot target_alias)) as [Hd|Hd].
  - repeat split; try discriminate; try tauto; eauto.
    + intros (_ & _ & _ & Hc); discriminate Hc.
    + intros (_ & _ & _ & a' & Hc & Hne). congruence.
  - repeat split; try discriminate; try tauto; eauto.
    + intros (_ & _ & _ & Hc); discriminate Hc.
    + intros (_ & _ & _ & a' & Hc & Hne). congruence.
Qed.

Lemma classify_is_candidate (R : record) :
  decision_eqb (classify zone KEEP_LIST (with_dot target_alias) R) ToBeDeleted
  = is_candidate zone KEEP_LIST target_alias R.
Proof.
  unfold classify, is_candidate. cbv zeta.
  destruct (String.eqb (Type_ R) "A"); [| reflexivity].
  destruct (String.eqb (Name R) (ZName zone)); [reflexivity |].
  destruct (Py.contains (Name R) KEEP_LIST); [reflexivity |]. simpl.
  destruct (AliasTarget R) as [a|]; [| reflexivity].
  destruct (String.eqb (DNSName a) (with_dot target_alias)); reflexivity.
Qed.

Lemma filter_loop_filter (t : string) (record_set to_delete : list record) :
  filter_loop zone KEEP_LIST t record_set to_delete
  = to_delete ++
    List.filter (fun R => decision_eqb (classify zone KEEP_LIST t R) ToBeDeleted)
      record_set.
Proof.
  revert to_delete. induction record_set as [|R rs IH]; intros acc; simpl.
  - now rewrite app_nil_r.
  - destruct (classify zone KEEP_LIST t R); simpl; rewrite IH;
      try reflexivity.
    now rewrite <- app_assoc.
Qed.

Lemma candidates_filter (record_set : list record) :
  candidates zone KEEP_LIST target_alias record_set
  = List.filter (is_candidate zone KEEP_LIST target_alias) record_set.
Proof.
  unfold candidates. cbv zeta. rewrite filter_loop_filter. simpl.
  apply List.filter_ext. intros R. apply classify_is_candidate.
Qed.

Lemma candidates_have_alias (record_set : list record) :
  Forall has_alias (candidates zone KEEP_LIST target_alias record_set).
Proof.
  apply Forall_forall. intros R HR. apply list_elem_of_In in HR.
  rewrite candidates_filter in HR. apply List.filter_In in HR.
  destruct HR as [_ HR]. unfold is_candidate in HR. unfold has_alias.
  destruct (AliasTarget R); [eauto |].
  rewrite andb_false_r in HR. discriminate.
Qed.

(** C1: a record of the listed set is appended to [to_delete] exactly when
    its type is ['A'], its name is neither the zone's name nor in
    [KEEP_LIST], it has an ['AliasTarget'], and the target's ['DNSName']
    equals the target alias with its trailing dot.  The checks are made in
    that order, each skip branch being reached only when the earlier checks
    passed; the result is the sub-list of the unchanged records of
    [record_set] that satisfy the condition, in listing order. *)
Theorem filter_selects_exactly_candidates (record_set : list record) :
  candidates zone KEEP_LIST target_alias record_set
  = List.filter (is_candidate zone KEEP_LIST target_alias) record_set
  /\ (forall R,
       In R (candidates zone KEEP_LIST target_alias record_set) <->
       In R record_set
       /\ Type_ R = "A" /\ Name R <> ZName zone /\ ~ In (Name R) KEEP_LIST
       /\ exists a, AliasTarget R = Some a /\ DNSName a = with_dot target_alias)
  /\ (forall R,
       let d := classify zone KEEP_LIST (with_dot target_alias) R in
       (d = SkipType <-> Type_ R <> "A")
       /\ (d = SkipZone <-> Type_ R = "A" /\ Name R = ZName zone)
       /\ (d = SkipKeepList <->
             Type_ R = "A" /\ Name R <> ZName zone /\ In (Name R) KEEP_LIST)
       /\ (d = SkipNoAlias <->
             Type_ R = "A" /\ Name R <> ZName zone /\ ~ In (Name R) KEEP_LIST
             /\ AliasTarget R = None)
       /\ (d = SkipAliasMismatch <->
             Type_ R = "A" /\ Name R <> ZName zone /\ ~ In (Name R) KEEP_LIST
             /\ exists a, AliasTarget R = Some a
                          /\ DNSName a <> with_dot target_alias)
       /\ (d = ToBeDeleted <->
             Type_ R = "A" /\ Name R <> ZName zone /\ ~ In (Name R) KEEP_LIST
             /\ exists a, AliasTarget R = Some a
                          /\ DNSName a = with_dot target_alias)).
Proof.
  split; [apply candidates_filter |]. split; [| apply classify_cases].
  intros R. rewrite candidates_filter, List.filter_In.
  rewrite <- classify_is_candidate.
  pose proof (classify_cases R) as (_ & _ & _ & _ & _ & H). cbv zeta in H.
  rewrite <- H.
  destruct (classify zone KEEP_LIST (with_dot target_alias) R); simpl;
    split; intros [H1 H2]; split; auto; discriminate.
Qed.

End Filter.

(** ** Chunks *)

Section Chunks.

Context {A : Type}.
Variable k : nat.
Hypothesis k_pos : (0 < k)%nat.

Lemma chunks_nil : chunks k (@nil A) = [].
Proof. reflexivity. Qed.

Lemma chunks_aux_fuel (f1 f2 : nat) (l : list A) :
  (length l <= f1)%nat -> (length l <= f2)%nat ->
  chunks_aux k f1 l = chunks_aux k f2 l.
Proof.
  revert f2 l. induction f1 as [|f1 IH]; intros f2 l H1 H2.
  - destruct l; [now destruct f2 | simpl in H1; lia].
  - destruct l as [|x l]; [now destruct f2 |].
    destruct f2 as [|f2]; [simpl in H2; lia |].
    cbn [chunks_aux]. f_equal.
    assert (Hd : (length (drop k (x :: l)) <= length l)%nat).
    { rewrite length_drop. simpl. lia. }
    simpl in H1, H2. apply IH; lia.
Qed.

Lemma chunks_aux_enough (fuel : nat) (l : list A) :
  (length l <= fuel)%nat -> chunks_aux k fuel l = chunks k l.
Proof. intros H. unfold chunks. now apply chunks_aux_fuel. Qed.

Lemma chunks_cons (l : list A) :
  l <> [] -> chunks k l = take k l :: chunks k (drop k l).
Proof.
  intros Hne. destruct l as [|x l]; [congruence |].
  unfold chunks at 1. cbn [chunks_aux length]. f_equal.
  apply chunks_aux_enough. rewrite length_drop. simpl. lia.
Qed.

(** Induction along the chunks of a list. *)
Lemma chunks_ind (P : list A -> Prop) :
  P [] ->
  (forall l, l <> [] -> P (drop k l) -> P l) ->
  forall l, P l.
Proof.
  intros Hnil Hstep l.
  remember (length l) as n eqn:Hn. revert l Hn.
  induction n as [n IH] using lt_wf_ind. intros l Hn.
  destruct l as [|x l]; [exact Hnil |].
  apply Hstep; [discriminate |].
  apply (IH (length (drop k (x :: l)))); [| reflexivity].
  rewrite length_drop. subst n. simpl. lia.
Qed.

Lemma concat_chunks (l : list A) : concat (chunks k l) = l.
Proof.
  induction l as [| l Hne IH] using chunks_ind; [reflexivity |].
  rewrite chunks_cons by exact Hne. simpl. rewrite IH. apply take_drop.
Qed.

Lemma chunks_bounded (l : list A) :
  Forall (fun c => (0 < length c <= k)%nat) (chunks k l).
Proof.
  induction l as [| l Hne IH] using chunks_ind; [constructor |].
  rewrite chunks_cons by exact Hne. constructor; [| exact IH].
  rewrite length_take. destruct l; [congruence | simpl; lia].
Qed.

Lemma length_chunks (l : list A) :
  length (chunks k l) = ((length l + (k - 1)) / k)%nat.
Proof.
  induction l as [| l Hne IH] using chunks_ind.
  - simpl. symmetry. apply Nat.div_small. lia.
  - rewrite chunks_cons by exact Hne. simpl. rewrite IH, length_drop.
    assert (Hl : (0 < length l)%nat) by (destruct l; [congruence | simpl; lia]).
    destruct (le_lt_dec k (length l)) as [Hge|Hlt].
    + replace (length l + (k - 1))%nat
        with ((length l - k + (k - 1)) + 1 * k)%nat by lia.
      rewrite Nat.div_add by lia. lia.
    + replace (length l - k)%nat with 0%nat by lia.
      rewrite (Nat.div_small (0 + (k - 1)) k) by lia.
      apply (Nat.div_unique _ _ 1 (length l - 1)); lia.
Qed.

End Chunks.

(** ** The batching loop *)

Lemma len_nonneg {A} (l : list A) : 0 <= Py.len l.
Proof. unfold Py.len. lia. Qed.

Lemma clamp_in_range (n i : Z) : 0 <= i <= n -> Py.clamp n i = i.
Proof.
  intros H. unfold Py.clamp.
  destruct (Z.ltb_spec i 0) as [?|_]; [lia |].
  destruct (Z.ltb_spec i 0) as [?|_]; [lia |].
  destruct (Z.ltb_spec n i) as [?|_]; [lia | reflexivity].
Qed.

(** Inside the loop the slice is the next chunk of the remaining records. *)
Lemma slice_next_chunk {A} (l : list A) (s : Z) :
  0 <= s < Py.len l ->
  let e := s + batch_size in
  let e' := if e >? Py.len l then Py.len l else e in
  Py.slice l s e' = take chunk_len (drop (Z.to_nat s) l)
  /\ drop (Z.to_nat e') l = drop chunk_len (drop (Z.to_nat s) l)
  /\ s < e' <= Py.len l.
Proof.
  intros Hs e e'. unfold Py.slice.
  assert (He' : s < e' <= Py.len l /\ e' <= s + 100).
  { subst e' e. unfold batch_size. destruct (Z.gtb_spec (s + 100) (Py.len l)); lia. }
  rewrite !clamp_in_range by lia.
  assert (Hk : chunk_len = 100%nat) by reflexivity.
  assert (Hlen : length (drop (Z.to_nat s) l) = Z.to_nat (Py.len l - s)).
  { rewrite length_drop. unfold Py.len. lia. }
  split; [| split; [| lia]].
  - subst e' e. unfold batch_size in *.
    destruct (Z.gtb_spec (s + 100) (Py.len l)) as [Hgt|Hle].
    + rewrite !take_ge; [reflexivity | lia | lia].
    + f_equal. lia.
  - rewrite drop_drop. subst e' e. unfold batch_size in *.
    destruct (Z.gtb_spec (s + 100) (Py.len l)) as [Hgt|Hle].
    + unfold Py.len in *. rewrite !drop_ge; [reflexivity | lia | lia].
    + f_equal. lia.
Qed.

Section Batcher.

Variable client : r53_client.
Variable act : action.
Variable comment : string.

Lemma build_change_set_ok (chunk : list record) (acc : list change) (w : world) :
  Forall has_alias chunk ->
  exists cs,
    build_change_set act chunk acc w = (Return (acc ++ cs), w)
    /\ Forall2 (fun ch r => Action ch = act /\ describes (ResourceRecordSet ch) r)
         cs chunk.
Proof.
  revert acc. induction chunk as [|r chunk IH]; intros acc Hall.
  - exists []. simpl. rewrite app_nil_r. split; [reflexivity | constructor].
  - inversion Hall as [|? ? [a Ha] Hrest]; subst.
    destruct (IH (acc ++ [ChangeOf act (descriptor r a)]) Hrest) as (cs & Hrun & Hcs).
    exists (ChangeOf act (descriptor r a) :: cs). split.
    + simpl. unfold bind, get_AliasTarget. rewrite Ha. unfold ret at 1.
      rewrite Hrun. now rewrite <- app_assoc.
    + constructor; [| exact Hcs]. simpl. split; [reflexivity |].
      unfold describes. simpl. rewrite Ha. now destruct a.
Qed.

Lemma build_change_set_fail (chunk : list record) (acc : list change) (w : world) :
  ~ Forall has_alias chunk ->
  build_change_set act chunk acc w = (Raise KeyError, w).
Proof.
  revert acc. induction chunk as [|r chunk IH]; intros acc Hnot.
  - exfalso. apply Hnot. constructor.
  - simpl. unfold bind, get_AliasTarget.
    destruct (AliasTarget r) as [a|] eqn:Ha; [| reflexivity].
    unfold ret at 1. apply IH. intros Hall. apply Hnot.
    constructor; [now exists a | exact Hall].
Qed.

Lemma rest_nonempty (records : list record) (s : Z) :
  0 <= s < Py.len records ->
  exists r0 tl rest',
    drop (Z.to_nat s) records = r0 :: rest'
    /\ take chunk_len (drop (Z.to_nat s) records) = r0 :: tl.
Proof.
  intros Hs. destruct (drop (Z.to_nat s) records) as [|r0 rest'] eqn:E.
  - apply (f_equal length) in E. rewrite length_drop in E.
    unfold Py.len in Hs. simpl in E. lia.
  - exists r0, (take (chunk_len - 1) rest'), rest'. split; [reflexivity |].
    reflexivity.
Qed.

Lemma has_alias_all_dec (l : list record) :
  {Forall has_alias l} + {~ Forall has_alias l}.
Proof.
  apply Forall_dec. intros r. unfold has_alias.
  destruct (AliasTarget r); [left; eauto | right; intros [? ?]; discriminate].
Qed.

Lemma loop_post_done (fuel : nat) (w : world) :
  loop_post client act comment [] fuel w (Return tt) w.
Proof.
  split; [reflexivity |]. exists [], []. rewrite app_nil_r.
  split; [reflexivity |]. split; [constructor |].
  split; [apply prefix_nil |]. split; [reflexivity | constructor].
Qed.

Lemma loop_post_out_of_fuel (rest : list record) (w : world) :
  rest <> [] -> loop_post client act comment rest 0 w OutOfFuel w.
Proof.
  intros Hne. split; [reflexivity |]. exists [], []. rewrite app_nil_r.
  split; [reflexivity |]. split; [constructor |].
  split; [apply prefix_nil |]. destruct rest; [congruence | simpl; lia].
Qed.

Lemma loop_post_key_error (rest : list record) (fuel : nat) (w : world) :
  ~ Forall has_alias rest ->
  loop_post client act comment rest fuel w (Raise KeyError) w.
Proof.
  intros Hnot. split; [reflexivity |]. exists [], []. rewrite app_nil_r.
  split; [reflexivity |]. split; [constructor |].
  split; [apply prefix_nil |]. split; [exact Hnot | constructor].
Qed.

Lemma chunk_len_pos : (0 < chunk_len)%nat.
Proof. vm_compute. lia. Qed.

Lemma loop_post_rejected (rest : list record) (fuel : nat) (w : world)
    (c : string * change_batch) :
  rest <> [] ->
  submits act comment c (take chunk_len rest) ->
  ~ accepted client c ->
  loop_post client act comment rest fuel w (Raise SystemExit)
    (WorldOf (files w) (events w ++ [call_event c])).
Proof.
  intros Hne Hsub Hrej. split; [reflexivity |].
  exists [c], [take chunk_len rest]. split; [reflexivity |].
  split; [constructor; [exact Hsub | constructor] |].
  split.
  - rewrite (chunks_cons chunk_len chunk_len_pos rest Hne).
    now exists (chunks chunk_len (drop chunk_len rest)).
  - exists [], c. repeat split; [constructor | exact Hrej].
Qed.

Lemma loop_post_step (rest : list record) (fuel : nat) (w w' : world)
    (o : outcome unit) (c : string * change_batch) :
  rest <> [] ->
  submits act comment c (take chunk_len rest) ->
  accepted client c ->
  loop_post client act comment (drop chunk_len rest) fuel
    (WorldOf (files w) (events w ++ [call_event c])) o w' ->
  loop_post client act comment rest (S fuel) w o w'.
Proof.
  intros Hne Hsub Hacc (Hfiles & calls & cs & Hev & Hcalls & Hpre & Ho).
  split; [exact Hfiles |].
  exists (c :: calls), (take chunk_len rest :: cs). simpl in Hev.
  split; [rewrite Hev, <- app_assoc; reflexivity |].
  split; [constructor; assumption |].
  rewrite (chunks_cons chunk_len chunk_len_pos rest Hne).
  split; [now apply prefix_cons |].
  destruct o as [[]|[]|]; try exact Ho.
  - destruct Ho as [-> Hall]. split; [reflexivity | now constructor].
  - destruct Ho as [Hnot Hall]. split; [| now constructor].
    intros H. apply Hnot. now apply Forall_drop.
  - destruct Ho as (calls0 & c' & -> & Hall & Hrej).
    exists (c :: calls0), c'. repeat split; [now constructor | exact Hrej].
  - rewrite length_drop in Ho. pose proof chunk_len_pos.
    destruct rest; [congruence | simpl in *; lia].
Qed.

Lemma change_loop_run (records : list record) (fuel : nat) :
  forall s w o w',
    0 <= s <= Py.len records ->
    change_loop client fuel act comment records (Py.len records) s s w = (o, w') ->
    loop_post client act comment (drop (Z.to_nat s) records) fuel w o w'.
Proof.
  assert (Hend : forall s, Py.len records <= s -> drop (Z.to_nat s) records = []).
  { intros s Hge. apply drop_ge. unfold Py.len in Hge. lia. }
  induction fuel as [|fuel IH]; intros s w o w' Hs Hrun.
  - cbn [change_loop] in Hrun.
    destruct (Z.ltb_spec s (Py.len records)) as [Hlt|Hge].
    + injection Hrun as <- <-. apply loop_post_out_of_fuel.
      destruct (rest_nonempty records s (conj (proj1 Hs) Hlt)) as (r0 & tl & rest' & -> & _).
      discriminate.
    + injection Hrun as <- <-. rewrite Hend by exact Hge. apply loop_post_done.
  - cbn [change_loop] in Hrun.
    destruct (Z.ltb_spec s (Py.len records)) as [Hlt|Hge].
    2: { injection Hrun as <- <-. rewrite Hend by exact Hge. apply loop_post_done. }
    cbv zeta in Hrun.
    destruct (slice_next_chunk records s (conj (proj1 Hs) Hlt)) as (Hslice & Hdrop & He).
    cbv zeta in Hslice, Hdrop, He.
    destruct (rest_nonempty records s (conj (proj1 Hs) Hlt)) as (r0 & tl & rest' & Hrest & Hchunk).
    set (e := if s + batch_size >? Py.len records then Py.len records
              else s + batch_size) in *.
    replace (s + (e - s)) with e in Hrun by lia.
    rewrite Hslice, Hchunk in Hrun.
    unfold bind at 1 in Hrun. unfold first, ret at 1 in Hrun.
    unfold bind at 1 in Hrun. unfold get_AliasTarget at 1 in Hrun.
    destruct (AliasTarget r0) as [a0|] eqn:Ha0.
    2: { unfold raise in Hrun. injection Hrun as <- <-.
         apply loop_post_key_error. rewrite Hrest. intros Hall.
         inversion Hall as [|? ? [a Ha] _]; congruence. }
    unfold ret at 1 in Hrun. unfold bind at 1 in Hrun.
    destruct (has_alias_all_dec (r0 :: tl)) as [Hall|Hnot].
    2: { rewrite build_change_set_fail in Hrun by exact Hnot.
         injection Hrun as <- <-. apply loop_post_key_error.
         intros Hall. apply Hnot. rewrite <- Hchunk. now apply Forall_take. }
    destruct (build_change_set_ok (r0 :: tl) [] w Hall) as (cs & Hbuild & Hcs).
    rewrite Hbuild in Hrun. simpl app in Hrun.
    unfold bind, submit, bind, emit in Hrun.
    set (c := (HostedZoneId a0, BatchOf comment cs)) in *.
    assert (Hsub : submits act comment c (take chunk_len (drop (Z.to_nat s) records))).
    { rewrite Hchunk. split; [reflexivity |]. split; [exact Hcs |].
      now exists r0, a0, tl. }
    assert (Hne : drop (Z.to_nat s) records <> []) by (rewrite Hrest; discriminate).
    destruct (change_resource_record_sets client (HostedZoneId a0)
                (BatchOf comment cs)) eqn:Hacc.
    + unfold ret at 1 in Hrun.
      apply (loop_post_step _ _ _ _ _ c Hne Hsub Hacc).
      rewrite <- Hdrop. apply IH; [lia | exact Hrun].
    + unfold raise in Hrun. injection Hrun as <- <-.
      apply (loop_post_rejected _ _ _ c Hne Hsub).
      unfold accepted. subst c. simpl. rewrite Hacc. discriminate.
Qed.

Lemma change_loop_from_start (records : list record) (fuel : nat) (w : world) :
  let run := change_loop client fuel act comment records (Py.len records) 0 0 w in
  loop_post client act comment records fuel w run.1 run.2.
Proof.
  intros run. apply (change_loop_run records fuel 0 w run.1 run.2).
  - pose proof (len_nonneg records). lia.
  - subst run. now destruct (change_loop _ _ _ _ _ _ _ _ _).
Qed.

(** With alias targets everywhere, a provider that accepts, and enough fuel,
    the loop returns after one call per chunk. *)
Lemma change_loop_success (records : list record) (fuel : nat) (w : world) :
  Forall has_alias records ->
  (forall z b, change_resource_record_sets client z b = true) ->
  (length records <= fuel)%nat ->
  exists w' calls,
    change_loop client fuel act comment records (Py.len records) 0 0 w
    = (Return tt, w')
    /\ files w' = files w
    /\ events w' = events w ++ map call_event calls
    /\ Forall2 (submits act comment) calls (chunks chunk_len records).
Proof.
  intros Hall Hacc Hfuel.
  pose proof (change_loop_from_start records fuel w) as H. cbv zeta in H.
  destruct (change_loop client fuel act comment records (Py.len records) 0 0 w)
    as [o w'].
  destruct H as (Hfiles & calls & cs & Hev & Hcalls & _ & Ho). simpl in *.
  exists w', calls.
  destruct o as [[]|[]|]; try contradiction.
  - destruct Ho as [-> _]. auto.
  - destruct Ho as [Hnot _]. contradiction.
  - destruct Ho as (calls0 & c & _ & _ & Hrej). exfalso. apply Hrej. apply Hacc.
  - lia.
Qed.

End Batcher.

Section Submits.

Variables (act : action) (comment : string).

Lemma submits_sizes (calls : list (string * change_batch)) (cs : list (list record)) :
  Forall2 (submits act comment) calls cs ->
  map (fun c => length (Changes c.2)) calls = map length cs.
Proof.
  induction 1 as [|c chunk calls cs (_ & Hc & _) _ IH]; [reflexivity |].
  simpl. rewrite IH. f_equal. eapply Forall2_length, Hc.
Qed.

Lemma submits_bounded (calls : list (string * change_batch)) (cs : list (list record)) :
  Forall2 (submits act comment) calls cs ->
  Forall (fun chunk => (0 < length chunk <= chunk_len)%nat) cs ->
  Forall (fun c => (length (Changes c.2) <= 100)%nat) calls.
Proof.
  induction 1 as [|c chunk calls cs (_ & Hc & _) _ IH]; intros Hb; [constructor |].
  inversion Hb as [|? ? Hchunk Hrest]; subst. constructor; [| now apply IH].
  rewrite (Forall2_length _ _ _ Hc). change chunk_len with 100%nat in Hchunk. lia.
Qed.

Lemma submits_actions (calls : list (string * change_batch)) (cs : list (list record)) :
  Forall2 (submits act comment) calls cs ->
  Forall (fun c => Forall (fun ch => Action ch = act) (Changes c.2)) calls.
Proof.
  induction 1 as [|c chunk calls cs (_ & Hc & _) _ IH]; constructor; [| exact IH].
  clear IH. induction Hc as [|ch r chs rs [Hact _] _ IH']; constructor; assumption.
Qed.

Lemma submits_describes (calls : list (string * change_batch)) (cs : list (list record)) :
  Forall2 (submits act comment) calls cs ->
  Forall2 describes (concat (map (fun c => batch_descriptors c.2) calls)) (concat cs).
Proof.
  induction 1 as [|c chunk calls cs (_ & Hc & _) _ IH]; [constructor |].
  simpl. apply Forall2_app; [| exact IH].
  unfold batch_descriptors. clear IH.
  induction Hc as [|ch r chs rs [_ Hd] _ IH']; constructor; assumption.
Qed.

Lemma submits_zone (calls : list (string * change_batch)) (cs : list (list record)) :
  Forall2 (submits act comment) calls cs -> Forall2 zone_of_first calls cs.
Proof.
  induction 1 as [|c chunk calls cs (_ & _ & Hz) _ IH]; constructor; assumption.
Qed.

Lemma submits_batched (records : list record)
    (calls : list (string * change_batch)) :
  Forall2 (submits act comment) calls (chunks chunk_len records) ->
  batched act records calls.
Proof.
  intros H.
  split; [| split; [| split; [| split]]].
  - rewrite (Forall2_length _ _ _ H).
    rewrite (length_chunks chunk_len chunk_len_pos records). unfold Py.len.
    change chunk_len with 100%nat. rewrite Nat2Z.inj_div. f_equal. lia.
  - eapply submits_bounded; [exact H |].
    apply (chunks_bounded chunk_len chunk_len_pos).
  - eapply submits_actions, H.
  - pose proof (submits_describes _ _ H) as Hd.
    now rewrite (concat_chunks chunk_len chunk_len_pos records) in Hd.
  - now apply submits_sizes.
Qed.

End Submits.

(** ** The two callers of the loop *)

Section Callers.

Variable client : r53_client.
Variable safe_load : string -> document.
Variable fuel : nat.

Lemma delete_records_post (record_list : list record) (w : world) :
  let run := delete_records client fuel record_list w in
  loop_post client DELETE "Deleting resource records" record_list fuel w run.1 run.2.
Proof. apply change_loop_from_start. Qed.

(** What [restore_deleted_records] does before its loop. *)
Lemma restore_cases (file_path : string) (w : world) :
  match files w !! file_path with
  | None =>
      restore_deleted_records client safe_load fuel file_path w
      = (Raise SystemExit, w)
  | Some content =>
      match safe_load content with
      | DocMalformed =>
          restore_deleted_records client safe_load fuel file_path w
          = (Raise YAMLError, w)
      | DocNone =>
          restore_deleted_records client safe_load fuel file_path w
          = (Raise TypeError, w)
      | DocRecords records =>
          restore_deleted_records client safe_load fuel file_path w
          = change_loop client fuel UPSERT "Restoring resource records"
              records (Py.len records) 0 0 w
      end
  end.
Proof.
  unfold restore_deleted_records, bind, exists_, load_file.
  destruct (files w !! file_path) as [content|] eqn:Hfile; simpl.
  - rewrite Hfile. now destruct (safe_load content).
  - reflexivity.
Qed.

Lemma restore_reads (file_path content : string) (records : list record) (w : world) :
  files w !! file_path = Some content ->
  safe_load content = DocRecords records ->
  restore_deleted_records client safe_load fuel file_path w
  = change_loop client fuel UPSERT "Restoring resource records"
      records (Py.len records) 0 0 w.
Proof.
  intros Hfile Hload. pose proof (restore_cases file_path w) as H.
  now rewrite Hfile, Hload in H.
Qed.

End Callers.

(** ** The Change Batcher *)

(** C2: when every record has an alias target and the provider accepts
    every call, both [delete_records] and [restore_deleted_records] return
    after [ceil(N/100)] submissions, made in input order, each of at most
    100 changes, whose descriptors, batch after batch, describe the input
    list in order; the batch sizes are those of the consecutive chunks of
    100.  Any fuel of at least [N] is enough.  For the list the filter
    hands to [delete_records] the condition on alias targets always holds. *)
Theorem change_batcher_chunks (client : r53_client)
    (safe_load : string -> document) (fuel : nat)
    (records : list record) :
  Forall has_alias records ->
  (forall z b, change_resource_record_sets client z b = true) ->
  (length records <= fuel)%nat ->
  (forall w, exists w' calls,
      delete_records client fuel records w = (Return tt, w')
      /\ events w' = events w ++ map call_event calls
      /\ batched DELETE records calls)
  /\ (forall w file_path content,
        files w !! file_path = Some content ->
        safe_load content = DocRecords records ->
        exists w' calls,
          restore_deleted_records client safe_load fuel file_path w = (Return tt, w')
          /\ events w' = events w ++ map call_event calls
          /\ batched UPSERT records calls)
  /\ (forall zone KEEP_LIST target_alias record_set w,
        let to_delete := candidates zone KEEP_LIST target_alias record_set in
        (length to_delete <= fuel)%nat ->
        exists w' calls,
          delete_records client fuel to_delete w = (Return tt, w')
          /\ events w' = events w ++ map call_event calls
          /\ batched DELETE to_delete calls).
Proof.
  intros Hall Hacc Hfuel. split; [| split].
  - intros w.
    destruct (change_loop_success client DELETE "Deleting resource records"
                records fuel w Hall Hacc Hfuel) as (w' & calls & Hrun & _ & Hev & Hsub).
    exists w', calls. split; [exact Hrun | split; [exact Hev |]].
    eapply submits_batched, Hsub.
  - intros w file_path content Hfile Hload.
    rewrite (restore_reads client safe_load fuel _ _ _ w Hfile Hload).
    destruct (change_loop_success client UPSERT "Restoring resource records"
                records fuel w Hall Hacc Hfuel) as (w' & calls & Hrun & _ & Hev & Hsub).
    exists w', calls. split; [exact Hrun | split; [exact Hev |]].
    eapply submits_batched, Hsub.
  - intros zone KEEP_LIST target_alias record_set w to_delete Hfuel'.
    destruct (change_loop_success client DELETE "Deleting resource records"
                to_delete fuel w
                (candidates_have_alias zone KEEP_LIST target_alias record_set)
                Hacc Hfuel') as (w' & calls & Hrun & _ & Hev & Hsub).
    exists w', calls. split; [exact Hrun | split; [exact Hev |]].
    eapply submits_batched, Hsub.
Qed.

(** A snapshot of 150 records is restored in two UPSERT batches, of 100
    and of 50 changes. *)
Lemma change_batcher_chunks_witness :
  let w := WorldOf {[ "/tmp/tmpk3v9.yaml" := Scenario.toy_dump Scenario.many_records ]} [] in
  exists w' calls,
    restore_deleted_records (Scenario.one_page_client []) Scenario.toy_load 150
      "/tmp/tmpk3v9.yaml" w = (Return tt, w')
    /\ events w' = map call_event calls
    /\ batched UPSERT Scenario.many_records calls
    /\ map (fun c => length (Changes c.2)) calls = [100; 50]%nat.
Proof.
  intros w.
  assert (Hall : Forall has_alias Scenario.many_records).
  { apply Forall_forall. intros r Hr. apply list_elem_of_In, in_map_iff in Hr.
    destruct Hr as (i & <- & _). now eexists. }
  assert (Hlen : (length Scenario.many_records <= 150)%nat) by (vm_compute; lia).
  destruct (change_batcher_chunks (Scenario.one_page_client []) Scenario.toy_load
              150 Scenario.many_records Hall (fun _ _ => eq_refl) Hlen)
    as (_ & Hrestore & _).
  destruct (Hrestore w "/tmp/tmpk3v9.yaml" (Scenario.toy_dump Scenario.many_records))
    as (w' & calls & Hrun & Hev & Hb).
  - apply lookup_singleton_eq.
  - vm_compute. reflexivity.
  - exists w', calls. split; [exact Hrun |]. split; [exact Hev |].
    split; [exact Hb |]. destruct Hb as (_ & _ & _ & _ & ->). vm_compute. reflexivity.
Defined.

(** C8: every call made by the batching loop goes to the zone named by the
    alias target of the first record of the chunk it submits; the chunks
    submitted are the first chunks of the input, in order.  [delete_records]
    and [restore_deleted_records] take no zone id at all. *)
Theorem zone_id_of_first_record (client : r53_client)
    (safe_load : string -> document) (fuel : nat) :
  (forall records w,
      let w' := (delete_records client fuel records w).2 in
      exists calls cs,
        events w' = events w ++ map call_event calls
        /\ cs `prefix_of` chunks chunk_len records
        /\ Forall2 (submits DELETE "Deleting resource records") calls cs
        /\ Forall2 zone_of_first calls cs)
  /\ (forall records w file_path content,
        files w !! file_path = Some content ->
        safe_load content = DocRecords records ->
        let w' := (restore_deleted_records client safe_load fuel file_path w).2 in
        exists calls cs,
          events w' = events w ++ map call_event calls
          /\ cs `prefix_of` chunks chunk_len records
          /\ Forall2 (submits UPSERT "Restoring resource records") calls cs
          /\ Forall2 zone_of_first calls cs).
Proof.
  split.
  - intros records w w'.
    destruct (delete_records_post client fuel records w)
      as (_ & calls & cs & Hev & Hsub & Hpre & _).
    exists calls, cs. repeat split; try assumption.
    eapply submits_zone, Hsub.
  - intros records w file_path content Hfile Hload w'. subst w'.
    rewrite (restore_reads client safe_load fuel _ _ _ w Hfile Hload).
    destruct (change_loop_from_start client UPSERT "Restoring resource records"
                records fuel w) as (_ & calls & cs & Hev & Hsub & Hpre & _).
    exists calls, cs. repeat split; try assumption.
    eapply submits_zone, Hsub.
Qed.

Lemma zone_id_of_first_record_witness :
  let w := WorldOf {[ "/tmp/tmpk3v9.yaml" :=
                        Scenario.toy_dump [Scenario.rec_www; Scenario.rec_api] ]} [] in
  let w' := (restore_deleted_records (Scenario.one_page_client []) Scenario.toy_load 2
               "/tmp/tmpk3v9.yaml" w).2 in
  exists calls cs,
    events w' = events w ++ map call_event calls
    /\ cs `prefix_of` chunks chunk_len [Scenario.rec_www; Scenario.rec_api]
    /\ Forall2 (submits UPSERT "Restoring resource records") calls cs
    /\ Forall2 zone_of_first calls cs.
Proof.
  intros w.
  apply (proj2 (zone_id_of_first_record (Scenario.one_page_client [])
                  Scenario.toy_load 2)
           [Scenario.rec_www; Scenario.rec_api] w "/tmp/tmpk3v9.yaml"
           (Scenario.toy_dump [Scenario.rec_www; Scenario.rec_api])).
  - apply lookup_singleton_eq.
  - vm_compute. reflexivity.
Defined.

(** C9: on an empty list both batchers return at once, without any call;
    and whatever the list, the provider and the fuel, the loop never raises
    [IndexError]: each slice it takes holds at least one record. *)
Theorem batcher_first_record_in_bounds (client : r53_client)
    (safe_load : string -> document) (fuel : nat) :
  (forall w, delete_records client fuel [] w = (Return tt, w))
  /\ (forall w file_path content,
        files w !! file_path = Some content ->
        safe_load content = DocRecords [] ->
        restore_deleted_records client safe_load fuel file_path w = (Return tt, w))
  /\ (forall records w,
        (delete_records client fuel records w).1 <> Raise IndexError)
  /\ (forall file_path w,
        (restore_deleted_records client safe_load fuel file_path w).1
        <> Raise IndexError)
  /\ (forall (records : list record) (start_record : Z),
        0 <= start_record < Py.len records ->
        let end_record := start_record + batch_size in
        let end_record :=
          if end_record >? Py.len records then Py.len records else end_record in
        Py.slice records start_record end_record <> []).
Proof.
  assert (Hempty : forall act comment w,
             change_loop client fuel act comment [] (Py.len (@nil record)) 0 0 w
             = (Return tt, w)).
  { intros act comment w. now destruct fuel. }
  assert (Hloop : forall act comment records w,
             (change_loop client fuel act comment records (Py.len records) 0 0 w).1
             <> Raise IndexError).
  { intros act comment records w.
    destruct (change_loop_from_start client act comment records fuel w)
      as (_ & calls & cs & _ & _ & _ & Ho).
    intros Heq. rewrite Heq in Ho. exact Ho. }
  split; [intros w; apply Hempty |].
  split.
  { intros w file_path content Hfile Hload.
    rewrite (restore_reads client safe_load fuel _ _ _ w Hfile Hload). apply Hempty. }
  split; [intros records w; apply Hloop |].
  split.
  { intros file_path w. pose proof (restore_cases client safe_load fuel file_path w) as H.
    destruct (files w !! file_path) as [content|].
    - destruct (safe_load content) as [records| |].
      + rewrite H. apply Hloop.
      + rewrite H. discriminate.
      + rewrite H. discriminate.
    - rewrite H. discriminate. }
  intros records s Hs e e'.
  destruct (slice_next_chunk records s Hs) as (Hslice & _ & _).
  cbv zeta in Hslice. subst e' e. rewrite Hslice.
  destruct (rest_nonempty records s Hs) as (r0 & tl & rest' & _ & ->). discriminate.
Qed.

Lemma batcher_first_record_in_bounds_witness :
  let w := WorldOf {[ "/tmp/tmpk3v9.yaml" := Scenario.toy_dump [] ]} [] in
  restore_deleted_records (Scenario.one_page_client []) Scenario.toy_load 0
    "/tmp/tmpk3v9.yaml" w = (Return tt, w)
  /\ Py.slice Scenario.many_records 100 150 <> [].
Proof.
  intros w.
  destruct (batcher_first_record_in_bounds (Scenario.one_page_client [])
              Scenario.toy_load 0) as (_ & Hrestore & _ & _ & Hslice).
  split.
  - apply (Hrestore w "/tmp/tmpk3v9.yaml" (Scenario.toy_dump [])).
    + apply lookup_singleton_eq.
    + vm_compute. reflexivity.
  - apply (Hslice Scenario.many_records 100). vm_compute. split; [discriminate | reflexivity].
Defined.

(** C10: every record the filter puts in [to_delete] has an
    ['AliasTarget'], hence [delete_records] run on the filter's result never
    raises [KeyError], whatever the provider and the fuel. *)
Theorem candidates_carry_alias_target (zone : hosted_zone)
    (KEEP_LIST : list string) (target_alias : string) (record_set : list record) :
  Forall has_alias (candidates zone KEEP_LIST target_alias record_set)
  /\ (forall client fuel w,
        (delete_records client fuel
           (candidates zone KEEP_LIST target_alias record_set) w).1
        <> Raise KeyError).
Proof.
  pose proof (candidates_have_alias zone KEEP_LIST target_alias record_set) as Hall.
  split; [exact Hall |].
  intros client fuel w.
  destruct (delete_records_post client fuel
              (candidates zone KEEP_LIST target_alias record_set) w)
    as (_ & calls & cs & _ & _ & _ & Ho).
  intros Heq. rewrite Heq in Ho. destruct Ho as [Hnot _]. exact (Hnot Hall).
Qed.

(** ** The Record Lister *)

Section Lister.

Variable client : r53_client.
Variable zone_id : string.

Lemma fetch_pages_done (fuel : nat) (current_set : page) (acc : list record) :
  IsTruncated current_set = false ->
  fetch_pages client fuel zone_id current_set acc = Return acc.
Proof. intros H. destruct fuel; simpl; now rewrite H. Qed.

Lemma fetch_pages_answers (ps : list page) (last : option page) :
  forall fuel current_set acc next,
    IsTruncated current_set = true ->
    NextRecordName current_set = Some next ->
    answers client zone_id (Some next) ps last ->
    (length ps < fuel)%nat ->
    fetch_pages client fuel zone_id current_set acc
    = Return (acc ++ page_records ps ++ last_records last).
Proof.
  induction ps as [|p ps IH]; intros fuel cur acc next Htr Hnext Hans Hfuel;
    (destruct fuel as [|fuel]; [simpl in Hfuel; lia |]);
    simpl; rewrite Htr, Hnext.
  - destruct Hans as [-> Hlast]. destruct last as [p|]; simpl.
    + now apply fetch_pages_done.
    + now rewrite app_nil_r.
  - destruct Hans as (-> & Htr' & next' & Hnext' & Hans).
    rewrite (IH fuel p _ next' Htr' Hnext' Hans) by (simpl in Hfuel; lia).
    unfold page_records. simpl. now rewrite <- !app_assoc.
Qed.

End Lister.

(** C7, as stated, fails: when the fetch of the second page raises, the
    caller gets the first page, which is neither empty nor the whole zone. *)
Lemma lister_returns_partial_list :
  answers Scenario.flaky_client "/hostedzone/Z1" None
    [PageOf [Scenario.rec_www] true (Some "api.example.com.")] None
  /\ get_all_records_in_zone Scenario.flaky_client 1 "/hostedzone/Z1"
     = Return [Scenario.rec_www]
  /\ get_all_records_in_zone Scenario.two_page_client 1 "/hostedzone/Z1"
     = Return [Scenario.rec_www; Scenario.rec_api]
  /\ [Scenario.rec_www] <> @nil record
  /\ [Scenario.rec_www] <> [Scenario.rec_www; Scenario.rec_api].
Proof.
  split.
  { simpl. repeat split; eauto. }
  repeat split; try reflexivity; discriminate.
Qed.

(** C7, amended: [get_all_records_in_zone] keeps what it has accumulated.
    When the provider serves the truncated pages [ps] and the next fetch
    raises, the caller receives the records of [ps], in order (nothing when
    the very first fetch raises); when no fetch raises it receives the
    records of every page. *)
Theorem lister_returns_fetched_pages (client : r53_client) (zone_id : string)
    (fuel : nat) (ps : list page) (last : option page) :
  answers client zone_id None ps last ->
  (length ps <= fuel)%nat ->
  get_all_records_in_zone client fuel zone_id
  = Return (page_records ps ++ last_records last).
Proof.
  intros Hans Hfuel. unfold get_all_records_in_zone.
  destruct ps as [|p ps].
  - destruct Hans as [-> Hlast]. destruct last as [p|]; simpl.
    + now apply fetch_pages_done.
    + reflexivity.
  - destruct Hans as (-> & Htr & next & Hnext & Hans).
    rewrite (fetch_pages_answers client zone_id ps last fuel p _ next Htr Hnext Hans)
      by (simpl in Hfuel; lia).
    unfold page_records. simpl. now rewrite <- app_assoc.
Qed.

Lemma lister_returns_fetched_pages_witness :
  get_all_records_in_zone Scenario.flaky_client 1 "/hostedzone/Z1"
  = Return (page_records [PageOf [Scenario.rec_www] true (Some "api.example.com.")]
            ++ last_records None).
Proof.
  apply (lister_returns_fetched_pages Scenario.flaky_client "/hostedzone/Z1" 1
           [PageOf [Scenario.rec_www] true (Some "api.example.com.")] None).
  - simpl. split; [reflexivity |]. split; [reflexivity |].
    exists "api.example.com.". split; [reflexivity |]. split; [reflexivity | exact I].
  - simpl. lia.
Defined.

(** ** The delete workflow *)

Lemma submissions_app (l l' : list event) :
  submissions (l ++ l') = submissions l ++ submissions l'.
Proof.
  induction l as [|e l IH]; [reflexivity |].
  destruct e; simpl; now rewrite IH.
Qed.

Lemma submissions_calls (calls : list (string * change_batch)) :
  submissions (map call_event calls) = calls.
Proof.
  induction calls as [|[z b] calls IH]; [reflexivity |]. simpl. now rewrite IH.
Qed.

Section Cleanup.

Variable python : interpreter.
Variable client : r53_client.
Variable safe_dump : list record -> string.
Variable temp_file_name : string.
Variable fuel : nat.
Variable KEEP_LIST : list string.
Variables zone_name target_alias : string.

(** [r53_cleanup], step by step.  Once the records are listed the temporary
    file is created; under Python 3 the dump into it raises, under Python 2
    the snapshot is written and renamed and the deletion follows. *)
Lemma r53_cleanup_run (dryrun : bool) (w : world) :
  match get_hosted_zone_by_name client zone_name with
  | None =>
      r53_cleanup python client safe_dump temp_file_name fuel KEEP_LIST
        zone_name target_alias dryrun w = (Raise TypeError, w)
  | Some zone =>
      match get_all_records_in_zone client fuel (Id zone) with
      | Return record_set =>
          let to_delete := candidates zone KEEP_LIST target_alias record_set in
          let w1 := after_snapshot temp_file_name (safe_dump to_delete) w in
          r53_cleanup python client safe_dump temp_file_name fuel KEEP_LIST
            zone_name target_alias dryrun w
          = match python with
            | Python2 =>
                if dryrun then (Return tt, w1)
                else delete_records client fuel to_delete w1
            | Python3 => (Raise TypeError, after_temp_file temp_file_name w)
            end
      | Raise e =>
          r53_cleanup python client safe_dump temp_file_name fuel KEEP_LIST
            zone_name target_alias dryrun w = (Raise e, w)
      | OutOfFuel =>
          r53_cleanup python client safe_dump temp_file_name fuel KEEP_LIST
            zone_name target_alias dryrun w = (OutOfFuel, w)
      end
  end.
Proof.
  unfold r53_cleanup.
  destruct (get_hosted_zone_by_name client zone_name) as [zone|]; [| reflexivity].
  unfold bind at 1, lift.
  destruct (get_all_records_in_zone client fuel (Id zone)) as [record_set|e|];
    [| reflexivity | reflexivity].
  cbv zeta. destruct python; [| reflexivity].
  unfold bind at 1, NamedTemporaryFile. unfold bind at 1, dump_to, write_str.
  cbn [fst snd files events]. rewrite lookup_insert_eq.
  unfold bind at 1, rename. cbn [files events]. rewrite lookup_insert_eq.
  unfold after_snapshot. rewrite <- !app_assoc. cbn [app].
  now destruct dryrun.
Qed.

Lemma after_snapshot_file (content : string) (w : world) :
  files (after_snapshot temp_file_name content w) !! (temp_file_name +:+ ".yaml")
  = Some content.
Proof. unfold after_snapshot. cbn [files]. apply lookup_insert_eq. Qed.

Lemma snapshot_first_calls (written : bool) (calls : list (string * change_batch)) :
  snapshot_first temp_file_name written true (map call_event calls) = true.
Proof. induction calls as [|c calls IH]; [reflexivity | exact IH]. Qed.

Lemma snapshot_first_snapshot (content : string)
    (calls : list (string * change_batch)) :
  snapshot_first temp_file_name false false
    (EvCreate temp_file_name :: EvWrite temp_file_name content
     :: EvRename temp_file_name (temp_file_name +:+ ".yaml")
     :: map call_event calls) = true.
Proof.
  cbn [snapshot_first orb andb]. rewrite !String.eqb_refl. cbn [andb orb].
  apply snapshot_first_calls.
Qed.

(** The events a run adds: none, the creation of the temporary file alone,
    or the snapshot followed by the calls of [delete_records]. *)
Lemma r53_cleanup_trace (dryrun : bool) (w : world) :
  let run := r53_cleanup python client safe_dump temp_file_name fuel KEEP_LIST
               zone_name target_alias dryrun w in
  exists new,
    events run.2 = events w ++ new
    /\ (new = []
        \/ new = [EvCreate temp_file_name]
        \/ exists zone record_set calls cs,
             get_hosted_zone_by_name client zone_name = Some zone
             /\ get_all_records_in_zone client fuel (Id zone) = Return record_set
             /\ let to_delete := candidates zone KEEP_LIST target_alias record_set in
                new = EvCreate temp_file_name
                      :: EvWrite temp_file_name (safe_dump to_delete)
                      :: EvRename temp_file_name (temp_file_name +:+ ".yaml")
                      :: map call_event calls
                /\ Forall2 (submits DELETE "Deleting resource records") calls cs
                /\ cs `prefix_of` chunks chunk_len to_delete
                /\ files run.2 !! (temp_file_name +:+ ".yaml")
                   = Some (safe_dump to_delete)).
Proof.
  intros run. subst run. pose proof (r53_cleanup_run dryrun w) as Hrun.
  destruct (get_hosted_zone_by_name client zone_name) as [zone|] eqn:Hzone.
  2: { rewrite Hrun. exists []. simpl. rewrite app_nil_r. auto. }
  destruct (get_all_records_in_zone client fuel (Id zone)) as [record_set|e|] eqn:Hlist.
  2, 3: rewrite Hrun; exists []; simpl; rewrite app_nil_r; auto.
  cbv zeta in Hrun. rewrite Hrun. clear Hrun.
  set (to_delete := candidates zone KEEP_LIST target_alias record_set).
  destruct python.
  2: { exists [EvCreate temp_file_name]. auto. }
  destruct dryrun.
  - eexists. split; [reflexivity |]. right. right.
    exists zone, record_set, [], []. cbv zeta. cbn [snd map].
    split; [reflexivity |]. split; [exact Hlist |]. split; [reflexivity |].
    split; [constructor |]. split; [apply prefix_nil |].
    apply after_snapshot_file.
  - destruct (delete_records_post client fuel to_delete
                (after_snapshot temp_file_name (safe_dump to_delete) w))
      as (Hfiles & calls & cs & Hev & Hsub & Hpre & _).
    eexists. split.
    { rewrite Hev. unfold after_snapshot. cbn [events].
      rewrite <- app_assoc. reflexivity. }
    right. right. exists zone, record_set, calls, cs. cbv zeta.
    split; [reflexivity |]. split; [exact Hlist |]. split; [reflexivity |].
    split; [exact Hsub |]. split; [exact Hpre |].
    rewrite Hfiles. apply after_snapshot_file.
Qed.

End Cleanup.

(** C3: in the events of every run of [r53_cleanup], under either
    interpreter, each change-batch call comes after the write of the
    snapshot and, after that, its rename to [temp_file_name + '.yaml'].
    The events a run adds have one of three shapes: none (no zone, or the
    listing raises); the creation of the temporary file alone (the dump
    raises); or the creation, the write of the dump of the filtered records,
    the rename, and only then the DELETE calls, made for the first chunks of
    those records, with the dump still at the final path when the run
    ends. *)
Theorem snapshot_before_delete (python : interpreter) (client : r53_client)
    (safe_dump : list record -> string) (temp_file_name : string) (fuel : nat)
    (KEEP_LIST : list string) (zone_name target_alias : string) (dryrun : bool)
    (w : world) :
  let run := r53_cleanup python client safe_dump temp_file_name fuel KEEP_LIST
               zone_name target_alias dryrun w in
  exists new,
    events run.2 = events w ++ new
    /\ snapshot_first temp_file_name false false new = true
    /\ (new = []
        \/ new = [EvCreate temp_file_name]
        \/ exists zone record_set calls cs,
             get_hosted_zone_by_name client zone_name = Some zone
             /\ get_all_records_in_zone client fuel (Id zone) = Return record_set
             /\ let to_delete := candidates zone KEEP_LIST target_alias record_set in
                new = EvCreate temp_file_name
                      :: EvWrite temp_file_name (safe_dump to_delete)
                      :: EvRename temp_file_name (temp_file_name +:+ ".yaml")
                      :: map call_event calls
                /\ Forall2 (submits DELETE "Deleting resource records") calls cs
                /\ cs `prefix_of` chunks chunk_len to_delete
                /\ files run.2 !! (temp_file_name +:+ ".yaml")
                   = Some (safe_dump to_delete)).
Proof.
  intros run.
  destruct (r53_cleanup_trace python client safe_dump temp_file_name fuel KEEP_LIST
              zone_name target_alias dryrun w) as (new & Hev & Hnew).
  exists new. split; [exact Hev |]. split; [| exact Hnew].
  destruct Hnew as [-> | [-> | (zone & record_set & calls & cs & _ & _ & Hnew)]];
    [reflexivity | reflexivity |].
  cbv zeta in Hnew. destruct Hnew as (-> & _).
  apply snapshot_first_snapshot.
Qed.

(** C5: under Python 3 the dry run of the specification's scenario (three
    records, one of which passes the filter) writes no snapshot.  The filter
    selects the one record, the temporary file is created, and
    [yaml.safe_dump] raises [TypeError] on it: the file stays empty, nothing
    is renamed to [.yaml], and no call is made. *)
Theorem dryrun_snapshot_write_raises :
  let record_set := [Scenario.rec_apex; Scenario.rec_www; Scenario.rec_mx] in
  let run := r53_cleanup Python3 (Scenario.one_page_client record_set)
               Scenario.toy_dump "/tmp/tmpk3v9" 1 [] "example.com"
               "old-elb.us-east-1.elb.amazonaws.com" true Scenario.empty_world in
  candidates Scenario.the_zone [] "old-elb.us-east-1.elb.amazonaws.com" record_set
  = [Scenario.rec_www]
  /\ run.1 = Raise TypeError
  /\ events run.2 = [EvCreate "/tmp/tmpk3v9"]
  /\ files run.2 !! "/tmp/tmpk3v9" = Some ""
  /\ files run.2 !! "/tmp/tmpk3v9.yaml" = None
  /\ submissions (events run.2) = [].
Proof.
  intros record_set run.
  assert (Hrun : run = (Raise TypeError, after_temp_file "/tmp/tmpk3v9" Scenario.empty_world)).
  { subst run. reflexivity. }
  rewrite Hrun. cbn [fst snd]. unfold after_temp_file. cbn [files events].
  split; [reflexivity |]. split; [reflexivity |]. split; [reflexivity |].
  split; [apply lookup_insert_eq |].
  split; [| reflexivity].
  rewrite lookup_insert_ne by discriminate. apply lookup_empty.
Qed.

(** C4: under Python 3 the candidates of a delete run cannot be read back.
    With two candidates in the zone, [r53_cleanup] raises [TypeError] at the
    dump and leaves no file at the snapshot path, so
    [restore_deleted_records] on that path ends in [exit(1)]; on the
    temporary file itself, which is empty, it raises [TypeError] at
    [len(None)]. *)
Theorem restore_finds_no_snapshot :
  let record_set := [Scenario.rec_apex; Scenario.rec_www; Scenario.rec_mx;
                     Scenario.rec_api] in
  let run := r53_cleanup Python3 (Scenario.one_page_client record_set)
               Scenario.toy_dump "/tmp/tmpk3v9" 1 [] "example.com"
               "old-elb.us-east-1.elb.amazonaws.com" false Scenario.empty_world in
  candidates Scenario.the_zone [] "old-elb.us-east-1.elb.amazonaws.com" record_set
  = [Scenario.rec_www; Scenario.rec_api]
  /\ run.1 = Raise TypeError
  /\ files run.2 !! "/tmp/tmpk3v9.yaml" = None
  /\ restore_deleted_records Scenario.two_page_client Scenario.toy_load 1
       "/tmp/tmpk3v9.yaml" run.2 = (Raise SystemExit, run.2)
  /\ files run.2 !! "/tmp/tmpk3v9" = Some ""
  /\ restore_deleted_records Scenario.two_page_client Scenario.toy_load 1
       "/tmp/tmpk3v9" run.2 = (Raise TypeError, run.2).
Proof.
  intros record_set run.
  assert (Hrun : run = (Raise TypeError, after_temp_file "/tmp/tmpk3v9" Scenario.empty_world)).
  { subst run. reflexivity. }
  rewrite Hrun. cbn [fst snd].
  assert (Hyaml : files (after_temp_file "/tmp/tmpk3v9" Scenario.empty_world)
                  !! "/tmp/tmpk3v9.yaml" = None).
  { unfold after_temp_file. cbn [files].
    rewrite lookup_insert_ne by discriminate. apply lookup_empty. }
  assert (Htmp : files (after_temp_file "/tmp/tmpk3v9" Scenario.empty_world)
                 !! "/tmp/tmpk3v9" = Some "").
  { unfold after_temp_file. cbn [files]. apply lookup_insert_eq. }
  split; [reflexivity |]. split; [reflexivity |]. split; [exact Hyaml |].
  split.
  { pose proof (restore_cases Scenario.two_page_client Scenario.toy_load 1
                  "/tmp/tmpk3v9.yaml"
                  (after_temp_file "/tmp/tmpk3v9" Scenario.empty_world)) as H.
    now rewrite Hyaml in H. }
  split; [exact Htmp |].
  pose proof (restore_cases Scenario.two_page_client Scenario.toy_load 1
                "/tmp/tmpk3v9"
                (after_temp_file "/tmp/tmpk3v9" Scenario.empty_world)) as H.
  rewrite Htmp in H. exact H.
Qed.

(** ** Runs of the concrete zone *)

Example slice_examples :
  Py.slice [1; 2; 3; 4; 5] 1 3 = [2; 3]
  /\ Py.slice [1; 2; 3; 4; 5] 3 100 = [4; 5]
  /\ Py.slice [1; 2; 3; 4; 5] (-2) 5 = [4; 5]
  /\ Py.slice [1; 2; 3; 4; 5] 4 2 = [].
Proof. repeat split. Qed.

Example classify_examples :
  let classify' := classify Scenario.the_zone ["api.example.com."]
                     (with_dot "old-elb.us-east-1.elb.amazonaws.com") in
  map classify'
    [Scenario.rec_mx; Scenario.rec_apex; Scenario.rec_api; Scenario.rec_plain;
     Scenario.rec_www;
     RecordOf "new.example.com." "A"
       (Some (AliasTargetOf "Z35SXDOTRQ7X7K" "new-elb.us-east-1.elb.amazonaws.com." false))
       []]
  = [SkipType; SkipZone; SkipKeepList; SkipNoAlias; ToBeDeleted; SkipAliasMismatch].
Proof. reflexivity. Qed.

(** The batcher sends a record to the zone of its alias target, not to the
    hosted zone it was listed in. *)
Example delete_zone_id_example :
  let run := delete_records (Scenario.one_page_client []) 1 [Scenario.rec_www]
               Scenario.empty_world in
  run.1 = Return tt
  /\ events run.2
     = [EvChange "Z35SXDOTRQ7X7K"
          (BatchOf "Deleting resource records"
             [ChangeOf DELETE
                (DescriptorOf Scenario.elb "A" "www.example.com.")])]
  /\ Id Scenario.the_zone <> "Z35SXDOTRQ7X7K".
Proof. vm_compute. repeat split. discriminate. Qed.

(** One run of [r53_cleanup] under each interpreter: three records, one
    candidate. *)
Example cleanup_run_example :
  let run python :=
    r53_cleanup python
      (Scenario.one_page_client
         [Scenario.rec_apex; Scenario.rec_www; Scenario.rec_mx])
      Scenario.toy_dump "/tmp/tmpk3v9" 1 [] "example.com"
      "old-elb.us-east-1.elb.amazonaws.com" false Scenario.empty_world in
  (run Python2).1 = Return tt
  /\ events (run Python2).2
     = [EvCreate "/tmp/tmpk3v9";
        EvWrite "/tmp/tmpk3v9" (Scenario.toy_dump [Scenario.rec_www]);
        EvRename "/tmp/tmpk3v9" "/tmp/tmpk3v9.yaml";
        EvChange "Z35SXDOTRQ7X7K"
          (BatchOf "Deleting resource records"
             [ChangeOf DELETE
                (DescriptorOf Scenario.elb "A" "www.example.com.")])]
  /\ (run Python3).1 = Raise TypeError
  /\ events (run Python3).2 = [EvCreate "/tmp/tmpk3v9"].
Proof. vm_compute. repeat split. Qed.

(** A provider that rejects everything stops the run at the first batch. *)
Example rejected_batch_example :
  let client := ClientOf None (fun _ => None) (fun _ _ => None) (fun _ _ => false) in
  let run := delete_records client 150 Scenario.many_records Scenario.empty_world in
  run.1 = Raise SystemExit
  /\ map (fun c => length (Changes c.2)) (submissions (events run.2)) = [100%nat].
Proof. vm_compute. split; reflexivity. Qed.

(** A snapshot holding a record without alias target makes the restore
    raise [KeyError] before any call. *)
Example restore_without_alias_example :
  let w := WorldOf {[ "/tmp/edited.yaml" := Scenario.toy_dump [Scenario.rec_www;
                                                              Scenario.rec_plain] ]} [] in
  Scenario.toy_load (Scenario.toy_dump [Scenario.rec_www; Scenario.rec_plain])
  = DocRecords [Scenario.rec_www; RecordOf "host.example.com." "A" None []]
  /\ (restore_deleted_records (Scenario.one_page_client []) Scenario.toy_load 2
        "/tmp/edited.yaml" w).1 = Raise KeyError.
Proof. vm_compute. split; reflexivity. Qed.

(** * Further properties *)

(** ** The batching loop: termination, failures, files *)

Section BatcherRuns.

Variable client : r53_client.
Variable act : action.
Variable comment : string.

Lemma build_change_set_no_timeout (chunk : list record) (w : world) :
  (build_change_set act chunk [] w).1 <> OutOfFuel.
Proof.
  destruct (has_alias_all_dec chunk) as [Hall|Hnot].
  - destruct (build_change_set_ok act chunk [] w Hall) as (cs & -> & _). discriminate.
  - rewrite (build_change_set_fail act chunk [] w Hnot). discriminate.
Qed.

(** One unit of fuel per batch is enough. *)
Lemma change_loop_fuel (records : list record) (fuel : nat) :
  forall s w,
    0 <= s <= Py.len records ->
    Py.len records - s <= 100 * Z.of_nat fuel ->
    (change_loop client fuel act comment records (Py.len records) s s w).1
    <> OutOfFuel.
Proof.
  induction fuel as [|fuel IH]; intros s w Hs Hfuel.
  - cbn [change_loop].
    destruct (Z.ltb_spec s (Py.len records)) as [Hlt|Hge]; [lia | discriminate].
  - cbn [change_loop].
    destruct (Z.ltb_spec s (Py.len records)) as [Hlt|Hge]; [| discriminate].
    cbv zeta.
    destruct (slice_next_chunk records s (conj (proj1 Hs) Hlt)) as (Hslice & _ & He).
    cbv zeta in Hslice, He.
    destruct (rest_nonempty records s (conj (proj1 Hs) Hlt))
      as (r0 & tl & rest' & _ & Hchunk).
    assert (Hnext : Py.len records
                    - (if s + batch_size >? Py.len records then Py.len records
                       else s + batch_size) <= 100 * Z.of_nat fuel).
    { unfold batch_size. destruct (Z.gtb_spec (s + 100) (Py.len records)); lia. }
    set (e := if s + batch_size >? Py.len records then Py.len records
              else s + batch_size) in *.
    replace (s + (e - s)) with e by lia.
    rewrite Hslice, Hchunk.
    unfold bind at 1. unfold first, ret at 1.
    unfold bind at 1. unfold get_AliasTarget at 1.
    destruct (AliasTarget r0) as [a0|]; [| discriminate].
    unfold ret at 1. unfold bind at 1.
    pose proof (build_change_set_no_timeout (r0 :: tl) w) as Hbuild.
    destruct (build_change_set act (r0 :: tl) [] w) as [[cs| |] w1];
      [| discriminate | now contradiction Hbuild].
    unfold bind, submit, bind, emit.
    destruct (change_resource_record_sets client (HostedZoneId a0)
                (BatchOf comment cs)); [| discriminate].
    unfold ret at 1. apply IH; lia.
Qed.

(** The outcomes of a run that has fuel for its [ceil(N/100)] batches. *)
Lemma change_loop_outcomes (records : list record) (fuel : nat) (w : world) :
  Py.len records <= 100 * Z.of_nat fuel ->
  let o := (change_loop client fuel act comment records (Py.len records) 0 0 w).1 in
  o = Return tt \/ o = Raise KeyError \/ o = Raise SystemExit.
Proof.
  intros Hfuel o.
  pose proof (change_loop_fuel records fuel 0 w) as Hno.
  pose proof (change_loop_from_start client act comment records fuel w) as Hpost.
  cbv zeta in Hpost. fold o in Hpost.
  assert (Ho : o <> OutOfFuel).
  { apply Hno; [pose proof (len_nonneg records) |]; lia. }
  destruct Hpost as (_ & calls & cs & _ & _ & _ & Hpost).
  destruct o as [[]|[]|]; try contradiction; auto.
Qed.

(** The records of the chunks a run has submitted all have alias targets. *)
Lemma submits_has_alias (calls : list (string * change_batch))
    (cs : list (list record)) :
  Forall2 (submits act comment) calls cs -> Forall has_alias (concat cs).
Proof.
  induction 1 as [|c chunk calls cs (_ & Hc & _) _ IH]; [constructor |].
  simpl. apply Forall_app. split; [| exact IH].
  clear IH. induction Hc as [|ch r chs rs [_ (_ & _ & Hd)] _ IH']; constructor.
  - unfold has_alias. rewrite Hd. eauto.
  - exact IH'.
Qed.

(** With a provider that accepts everything, the run succeeds exactly when
    every record has an alias target, and raises [KeyError] otherwise. *)
Lemma change_loop_alias_or_key_error (records : list record) (fuel : nat) (w : world) :
  (forall z b, change_resource_record_sets client z b = true) ->
  Py.len records <= 100 * Z.of_nat fuel ->
  (change_loop client fuel act comment records (Py.len records) 0 0 w).1
  = if forallb has_alias_b records then Return tt else Raise KeyError.
Proof.
  intros Hacc Hfuel.
  pose proof (change_loop_outcomes records fuel w Hfuel) as Ho.
  pose proof (change_loop_from_start client act comment records fuel w) as Hpost.
  cbv zeta in Ho, Hpost.
  destruct Hpost as (_ & calls & cs & _ & Hsub & _ & Hpost).
  assert (Hb : forallb has_alias_b records = true <-> Forall has_alias records).
  { rewrite forallb_forall, Forall_forall. unfold has_alias_b, has_alias.
    split; intros H r Hr.
    - apply list_elem_of_In in Hr. specialize (H r Hr).
      destruct (AliasTarget r); [eauto | discriminate].
    - apply list_elem_of_In in Hr. destruct (H r Hr) as [a ->]. reflexivity. }
  destruct (change_loop client fuel act comment records (Py.len records) 0 0 w)
    as [o w'].
  simpl in *. destruct Ho as [-> | [-> | ->]].
  - destruct Hpost as [-> _].
    apply submits_has_alias in Hsub.
    rewrite (concat_chunks chunk_len chunk_len_pos) in Hsub.
    apply Hb in Hsub. now rewrite Hsub.
  - destruct Hpost as [Hnot _].
    destruct (forallb has_alias_b records) eqn:E; [| reflexivity].
    exfalso. apply Hnot, Hb. reflexivity.
  - destruct Hpost as (calls0 & c & _ & _ & Hrej). exfalso. apply Hrej, Hacc.
Qed.

End BatcherRuns.

Section BatcherExtras.

Variable client : r53_client.
Variable safe_load : string -> document.
Variable fuel : nat.

(** X1: the batching loops terminate within [ceil(N/100)] iterations: with
    one unit of fuel per batch, [delete_records] and
    [restore_deleted_records] (on a snapshot that loads as [records]) end by
    returning, by [KeyError] or by [exit(1)], whatever the provider does. *)
Theorem batcher_terminates (records : list record) :
  Py.len records <= 100 * Z.of_nat fuel ->
  (forall w,
      let o := (delete_records client fuel records w).1 in
      o = Return tt \/ o = Raise KeyError \/ o = Raise SystemExit)
  /\ (forall w file_path content,
        files w !! file_path = Some content ->
        safe_load content = DocRecords records ->
        let o := (restore_deleted_records client safe_load fuel file_path w).1 in
        o = Return tt \/ o = Raise KeyError \/ o = Raise SystemExit).
Proof.
  intros Hfuel. split.
  - intros w. apply change_loop_outcomes. exact Hfuel.
  - intros w file_path content Hfile Hload.
    rewrite (restore_reads client safe_load fuel _ _ _ w Hfile Hload).
    apply change_loop_outcomes. exact Hfuel.
Qed.

(** X2: when the provider accepts every batch, a run succeeds exactly when
    every record has an ['AliasTarget']; a single record without one makes
    [delete_records] and [restore_deleted_records] raise [KeyError]. *)
Theorem batcher_succeeds_iff_alias_targets (records : list record) :
  (forall z b, change_resource_record_sets client z b = true) ->
  Py.len records <= 100 * Z.of_nat fuel ->
  (forall w,
      (delete_records client fuel records w).1
      = if forallb has_alias_b records then Return tt else Raise KeyError)
  /\ (forall w file_path content,
        files w !! file_path = Some content ->
        safe_load content = DocRecords records ->
        (restore_deleted_records client safe_load fuel file_path w).1
        = if forallb has_alias_b records then Return tt else Raise KeyError).
Proof.
  intros Hacc Hfuel. split.
  - intros w. now apply change_loop_alias_or_key_error.
  - intros w file_path content Hfile Hload.
    rewrite (restore_reads client safe_load fuel _ _ _ w Hfile Hload).
    now apply change_loop_alias_or_key_error.
Qed.

(** X3: a rejected batch stops the run without rollback.  When
    [delete_records] ends in [exit(1)], the calls made are those of the
    first chunks of the list, all accepted except the last one, which the
    provider rejected; later chunks were not attempted.
    [restore_deleted_records] ends in [exit(1)] in that way or, with no call
    at all, because the path does not exist. *)
Theorem rejected_batch_stops_run :
  (forall records w,
      (delete_records client fuel records w).1 = Raise SystemExit ->
      exists calls0 c cs,
        events (delete_records client fuel records w).2
        = events w ++ map call_event (calls0 ++ [c])
        /\ Forall (accepted client) calls0
        /\ ~ accepted client c
        /\ Forall2 (submits DELETE "Deleting resource records") (calls0 ++ [c]) cs
        /\ cs `prefix_of` chunks chunk_len records)
  /\ (forall file_path w,
        files w !! file_path = None ->
        restore_deleted_records client safe_load fuel file_path w
        = (Raise SystemExit, w))
  /\ (forall file_path content records w,
        files w !! file_path = Some content ->
        safe_load content = DocRecords records ->
        (restore_deleted_records client safe_load fuel file_path w).1
        = Raise SystemExit ->
        exists calls0 c cs,
          events (restore_deleted_records client safe_load fuel file_path w).2
          = events w ++ map call_event (calls0 ++ [c])
          /\ Forall (accepted client) calls0
          /\ ~ accepted client c
          /\ Forall2 (submits UPSERT "Restoring resource records") (calls0 ++ [c]) cs
          /\ cs `prefix_of` chunks chunk_len records).
Proof.
  assert (Hloop : forall act comment records w,
    (change_loop client fuel act comment records (Py.len records) 0 0 w).1
    = Raise SystemExit ->
    exists calls0 c cs,
      events (change_loop client fuel act comment records (Py.len records) 0 0 w).2
      = events w ++ map call_event (calls0 ++ [c])
      /\ Forall (accepted client) calls0
      /\ ~ accepted client c
      /\ Forall2 (submits act comment) (calls0 ++ [c]) cs
      /\ cs `prefix_of` chunks chunk_len records).
  { intros act comment records w Ho.
    destruct (change_loop_from_start client act comment records fuel w)
      as (_ & calls & cs & Hev & Hsub & Hpre & Hpost).
    rewrite Ho in Hpost. destruct Hpost as (calls0 & c & -> & Hall & Hrej).
    exists calls0, c, cs. auto. }
  split; [intros records w; apply Hloop |].
  split.
  - intros file_path w Hfile.
    pose proof (restore_cases client safe_load fuel file_path w) as H.
    now rewrite Hfile in H.
  - intros file_path content records w Hfile Hload.
    rewrite (restore_reads client safe_load fuel _ _ _ w Hfile Hload).
    apply Hloop.
Qed.

End BatcherExtras.

Lemma batcher_terminates_witness :
  let o := (delete_records (Scenario.rejecting_client []) 2 Scenario.many_records
              Scenario.empty_world).1 in
  o = Return tt \/ o = Raise KeyError \/ o = Raise SystemExit.
Proof.
  apply (proj1 (batcher_terminates (Scenario.rejecting_client []) Scenario.toy_load 2
                  Scenario.many_records ltac:(vm_compute; discriminate))).
Defined.

Lemma batcher_succeeds_iff_alias_targets_witness :
  (delete_records (Scenario.one_page_client []) 1
     [Scenario.rec_www; Scenario.rec_plain] Scenario.empty_world).1
  = if forallb has_alias_b [Scenario.rec_www; Scenario.rec_plain]
    then Return tt else Raise KeyError.
Proof.
  apply (proj1 (batcher_succeeds_iff_alias_targets (Scenario.one_page_client []) Scenario.toy_load 1
                  [Scenario.rec_www; Scenario.rec_plain]
                  (fun _ _ => eq_refl) ltac:(vm_compute; discriminate))).
Defined.

Lemma rejected_batch_stops_run_witness :
  exists calls0 c cs,
    events (delete_records (Scenario.rejecting_client []) 2 Scenario.many_records
              Scenario.empty_world).2
    = events Scenario.empty_world ++ map call_event (calls0 ++ [c])
    /\ Forall (accepted (Scenario.rejecting_client [])) calls0
    /\ ~ accepted (Scenario.rejecting_client []) c
    /\ Forall2 (submits DELETE "Deleting resource records") (calls0 ++ [c]) cs
    /\ cs `prefix_of` chunks chunk_len Scenario.many_records.
Proof.
  apply (proj1 (rejected_batch_stops_run (Scenario.rejecting_client [])
                  Scenario.toy_load 2) Scenario.many_records Scenario.empty_world).
  vm_compute. reflexivity.
Defined.

(** ** Zone lookup and trailing dots *)

Lemma substring_after (s t : string) (m : nat) :
  substring (String.length s) m (s +:+ t) = substring 0 m t.
Proof.
  induction s as [|c s IH]; [reflexivity |].
  rewrite append_cons. simpl. exact IH.
Qed.

Lemma endswith_dot_appended (s : string) : Py.endswith (s +:+ ".") "." = true.
Proof.
  unfold Py.endswith. rewrite length_append. simpl String.length.
  replace (String.length s + 1 - 1)%nat with (String.length s) by lia.
  rewrite substring_after.
  destruct (Nat.leb_spec 1 (String.length s + 1)) as [_|H]; [reflexivity | lia].
Qed.

Lemma with_dot_endswith (s : string) : Py.endswith (with_dot s) "." = true.
Proof.
  unfold with_dot. destruct (Py.endswith s ".") eqn:E; simpl;
    [exact E | apply endswith_dot_appended].
Qed.

Lemma with_dot_idempotent (s : string) : with_dot (with_dot s) = with_dot s.
Proof. unfold with_dot at 1. now rewrite with_dot_endswith. Qed.

Section ZoneLookup.

Variable client : r53_client.

Lemma scan_zones_first (name : string) (zone_list : list hosted_zone)
    (z : hosted_zone) :
  scan_zones client name zone_list None = Some z <->
  exists l1 entry l2,
    zone_list = l1 ++ entry :: l2
    /\ ZName entry = name
    /\ get_hosted_zone client (Id entry) = Some z
    /\ forall e, In e l1 -> ZName e = name -> get_hosted_zone client (Id e) = None.
Proof.
  induction zone_list as [|zone rest IH]; simpl.
  - split; [discriminate |]. intros (l1 & entry & l2 & H & _). now destruct l1.
  - destruct (String.eqb_spec name (ZName zone)) as [Hname|Hname].
    + destruct (get_hosted_zone client (Id zone)) as [z'|] eqn:Hget.
      * split.
        -- intros [= <-]. exists [], zone, rest. repeat split; auto.
           intros e [].
        -- intros (l1 & entry & l2 & Hl & Hn & Hg & Hbefore).
           destruct l1 as [|e l1]; simpl in Hl; injection Hl as <- Hl.
           ++ congruence.
           ++ rewrite (Hbefore zone (or_introl eq_refl) (eq_sym Hname)) in Hget.
              discriminate.
      * rewrite IH. split.
        -- intros (l1 & entry & l2 & -> & Hn & Hg & Hbefore).
           exists (zone :: l1), entry, l2. repeat split; auto.
           intros e [<- | He]; auto.
        -- intros (l1 & entry & l2 & Hl & Hn & Hg & Hbefore).
           destruct l1 as [|e l1]; simpl in Hl; injection Hl as <- Hl.
           ++ congruence.
           ++ exists l1, entry, l2. repeat split; auto.
              intros e' He'. apply Hbefore. now right.
    + rewrite IH. split.
      * intros (l1 & entry & l2 & -> & Hn & Hg & Hbefore).
        exists (zone :: l1), entry, l2. repeat split; auto.
        intros e [<- | He]; [congruence | auto].
      * intros (l1 & entry & l2 & Hl & Hn & Hg & Hbefore).
        destruct l1 as [|e l1]; simpl in Hl; injection Hl as <- Hl.
        -- congruence.
        -- exists l1, entry, l2. repeat split; auto.
           intros e' He'. apply Hbefore. now right.
Qed.

Lemma scan_zones_none (name : string) (zone_list : list hosted_zone) :
  scan_zones client name zone_list None = None <->
  forall e, In e zone_list -> ZName e = name -> get_hosted_zone client (Id e) = None.
Proof.
  induction zone_list as [|zone rest IH]; simpl.
  - split; [intros _ e [] | reflexivity].
  - destruct (String.eqb_spec name (ZName zone)) as [Hname|Hname].
    + destruct (get_hosted_zone client (Id zone)) as [z'|] eqn:Hget.
      * split; [discriminate |]. intros H.
        rewrite (H zone (or_introl eq_refl) (eq_sym Hname)) in Hget. discriminate.
      * rewrite IH. split.
        -- intros H e [<- | He]; auto.
        -- intros H e He. apply H. now right.
    + rewrite IH. split.
      * intros H e [<- | He]; [congruence | auto].
      * intros H e He. apply H. now right.
Qed.

Lemma get_hosted_zone_by_name_scan (zone_name : string) :
  get_hosted_zone_by_name client zone_name
  = match list_hosted_zones client with
    | Some zone_list => scan_zones client (with_dot zone_name) zone_list None
    | None => None
    end.
Proof.
  unfold get_hosted_zone_by_name, get_hosted_zone_list. cbv zeta.
  destruct (list_hosted_zones client) as [[|zone rest]|]; reflexivity.
Qed.

(** X5: [get_hosted_zone_by_name] returns the answer of [get_hosted_zone]
    for the first listed zone whose name equals the requested name (with
    its trailing dot) and whose lookup succeeds; a failed lookup does not
    end the scan.  It returns [None] exactly when the zone list cannot be
    fetched or no zone of that name can be looked up. *)
Theorem zone_lookup_finds_first_match (zone_name : string) :
  (forall z,
      get_hosted_zone_by_name client zone_name = Some z <->
      exists l1 entry l2,
        list_hosted_zones client = Some (l1 ++ entry :: l2)
        /\ ZName entry = with_dot zone_name
        /\ get_hosted_zone client (Id entry) = Some z
        /\ forall e, In e l1 -> ZName e = with_dot zone_name ->
                     get_hosted_zone client (Id e) = None)
  /\ (get_hosted_zone_by_name client zone_name = None <->
      list_hosted_zones client = None
      \/ exists zone_list,
           list_hosted_zones client = Some zone_list
           /\ forall e, In e zone_list -> ZName e = with_dot zone_name ->
                        get_hosted_zone client (Id e) = None).
Proof.
  rewrite get_hosted_zone_by_name_scan. split.
  - intros z. destruct (list_hosted_zones client) as [zone_list|].
    + rewrite scan_zones_first. split.
      * intros (l1 & entry & l2 & -> & H). now exists l1, entry, l2.
      * intros (l1 & entry & l2 & [= ->] & H). now exists l1, entry, l2.
    + split; [discriminate |]. intros (l1 & entry & l2 & H & _). discriminate.
  - destruct (list_hosted_zones client) as [zone_list|].
    + rewrite scan_zones_none. split.
      * intros H. right. now exists zone_list.
      * intros [H | (zl & [= <-] & H)]; [discriminate | exact H].
    + split; [now left | reflexivity].
Qed.

End ZoneLookup.

(** X6: a trailing dot on the zone name or on the target alias is optional:
    the name with its dot enforced ends in a dot, enforcing it twice changes
    nothing, and the zone lookup, the keep-list expansion and the filter
    give the same result for a name and for the name with its dot. *)
Theorem trailing_dot_is_optional (s : string) :
  Py.endswith (with_dot s) "." = true
  /\ with_dot (s +:+ ".") = s +:+ "."
  /\ (forall client,
        get_hosted_zone_by_name client (with_dot s) = get_hosted_zone_by_name client s)
  /\ (forall KEEP_LIST,
        expand_keep_list (with_dot s) KEEP_LIST = expand_keep_list s KEEP_LIST)
  /\ (forall zone KEEP_LIST record_set,
        candidates zone KEEP_LIST (with_dot s) record_set
        = candidates zone KEEP_LIST s record_set).
Proof.
  split; [apply with_dot_endswith |].
  split; [unfold with_dot; now rewrite endswith_dot_appended |].
  split; [| split].
  - intros client. rewrite !get_hosted_zone_by_name_scan.
    now rewrite with_dot_idempotent.
  - intros KEEP_LIST. unfold expand_keep_list. cbv zeta.
    now rewrite with_dot_idempotent.
  - intros zone KEEP_LIST record_set. unfold candidates. cbv zeta.
    now rewrite with_dot_idempotent.
Qed.

(** ** The delete workflow, end to end *)

Lemma get_all_records_answers (client : r53_client) (zone_id : string)
    (fuel : nat) (ps : list page) (last : option page) :
  answers client zone_id None ps last ->
  (length ps <= fuel)%nat ->
  get_all_records_in_zone client fuel zone_id
  = Return (page_records ps ++ last_records last).
Proof.
  intros Hans Hfuel. unfold get_all_records_in_zone.
  destruct ps as [|p ps].
  - destruct Hans as [-> Hlast]. destruct last as [p|]; simpl.
    + now apply fetch_pages_done.
    + reflexivity.
  - destruct Hans as (-> & Htr & next & Hnext & Hans).
    rewrite (fetch_pages_answers client zone_id ps last fuel p _ next Htr Hnext Hans)
      by (simpl in Hfuel; lia).
    unfold page_records. simpl. now rewrite <- app_assoc.
Qed.

Lemma in_chunks {A} (k : nat) (l : list A) (chunk : list A) (x : A) :
  (0 < k)%nat -> In chunk (chunks k l) -> In x chunk -> In x l.
Proof.
  intros Hk Hchunk Hx. rewrite <- (concat_chunks k Hk l).
  apply in_concat. now exists chunk.
Qed.

Lemma temp_name_differs (tmp : string) : tmp <> tmp +:+ ".yaml".
Proof.
  intros H. apply (f_equal String.length) in H.
  rewrite length_append in H. simpl in H. lia.
Qed.

Lemma describes_unique (d d' : resource_record_set) (r : record) :
  describes d r -> describes d' r -> d = d'.
Proof.
  intros (Hn & Ht & Ha) (Hn' & Ht' & Ha'). destruct d, d'. simpl in *. congruence.
Qed.

Lemma submits_same_calls (act act' : action) (comment comment' : string)
    (calls calls' : list (string * change_batch)) (cs : list (list record)) :
  Forall2 (submits act comment) calls cs ->
  Forall2 (submits act' comment') calls' cs ->
  Forall2 same_call_but_action calls calls'.
Proof.
  intros H. revert calls'.
  induction H as [|c chunk calls cs (_ & Hc & r & a & rest & Hr & Ha & Hz) _ IH];
    intros calls' H'; inversion H' as [|c' ? calls'' ? (_ & Hc' & r' & a' & rest' & Hr' & Ha' & Hz') Hrest];
    subst; constructor; [| now apply IH].
  split.
  - injection Hr' as <- <-. congruence.
  - unfold batch_descriptors. clear -Hc Hc'.
    revert Hc'. generalize (Changes c'.2) as chs'.
    generalize dependent (Changes c.2). intros chs Hc.
    induction Hc as [|ch R chs rs [_ Hd] _ IH]; intros chs' Hc';
      inversion Hc' as [|ch' ? chs'' ? [_ Hd'] Hrest]; subst; [reflexivity |].
    simpl. f_equal; [eapply describes_unique; eassumption | now apply IH].
Qed.

(** The loop succeeds with one unit of fuel per batch. *)
Lemma change_loop_success_tight (client : r53_client) (act : action)
    (comment : string) (records : list record) (fuel : nat) (w : world) :
  Forall has_alias records ->
  (forall z b, change_resource_record_sets client z b = true) ->
  Py.len records <= 100 * Z.of_nat fuel ->
  exists w' calls,
    change_loop client fuel act comment records (Py.len records) 0 0 w
    = (Return tt, w')
    /\ files w' = files w
    /\ events w' = events w ++ map call_event calls
    /\ Forall2 (submits act comment) calls (chunks chunk_len records).
Proof.
  intros Hall Hacc Hfuel.
  pose proof (change_loop_alias_or_key_error client act comment records fuel w
                Hacc Hfuel) as Ho.
  replace (forallb has_alias_b records) with true in Ho.
  2: { symmetry. apply forallb_forall. intros r Hr.
       apply list_elem_of_In in Hr.
       rewrite Forall_forall in Hall. destruct (Hall r Hr) as [a Ha].
       unfold has_alias_b. now rewrite Ha. }
  pose proof (change_loop_from_start client act comment records fuel w) as Hpost.
  cbv zeta in Hpost.
  destruct (change_loop client fuel act comment records (Py.len records) 0 0 w)
    as [o w'].
  simpl in Ho. subst o.
  destruct Hpost as (Hfiles & calls & cs & Hev & Hsub & _ & -> & _).
  exists w', calls. auto.
Qed.

Section CleanupExtras.

Variable python : interpreter.
Variable client : r53_client.
Variable safe_dump : list record -> string.
Variable temp_file_name : string.
Variable fuel : nat.
Variable KEEP_LIST : list string.
Variables zone_name target_alias : string.

(** X7: without a zone, [r53_cleanup] raises [TypeError] (it subscripts
    [None]) before it lists, writes or deletes anything.  That happens when
    the zone list cannot be fetched and when no zone of the requested name
    can be looked up. *)
Theorem cleanup_without_zone_raises (dryrun : bool) (w : world) :
  (list_hosted_zones client = None
   \/ exists zone_list,
        list_hosted_zones client = Some zone_list
        /\ forall e, In e zone_list -> ZName e = with_dot zone_name ->
                     get_hosted_zone client (Id e) = None) ->
  r53_cleanup python client safe_dump temp_file_name fuel KEEP_LIST
    zone_name target_alias dryrun w = (Raise TypeError, w).
Proof.
  intros H.
  pose proof (r53_cleanup_run python client safe_dump temp_file_name fuel KEEP_LIST
                zone_name target_alias dryrun w) as Hrun.
  replace (get_hosted_zone_by_name client zone_name) with (@None hosted_zone) in Hrun;
    [exact Hrun |].
  symmetry. rewrite get_hosted_zone_by_name_scan.
  destruct H as [-> | (zone_list & -> & H)]; [reflexivity |].
  now apply scan_zones_none.
Qed.

(** X8: an error while listing does not stop the workflow.  When the
    provider serves the pages [ps] and the next fetch raises, [r53_cleanup]
    goes on exactly as if the zone held the records of [ps] only.  Under
    Python 2 it snapshots the candidates among them and, unless [dryrun],
    deletes them; under Python 3 it creates the temporary file and raises
    [TypeError] at the dump. *)
Theorem cleanup_continues_after_listing_error (zone : hosted_zone)
    (ps : list page) (dryrun : bool) (w : world) :
  get_hosted_zone_by_name client zone_name = Some zone ->
  answers client (Id zone) None ps None ->
  (length ps <= fuel)%nat ->
  let to_delete := candidates zone KEEP_LIST target_alias (page_records ps) in
  let w1 := after_snapshot temp_file_name (safe_dump to_delete) w in
  r53_cleanup python client safe_dump temp_file_name fuel KEEP_LIST
    zone_name target_alias dryrun w
  = match python with
    | Python2 =>
        if dryrun then (Return tt, w1) else delete_records client fuel to_delete w1
    | Python3 => (Raise TypeError, after_temp_file temp_file_name w)
    end.
Proof.
  intros Hzone Hans Hfuel.
  pose proof (r53_cleanup_run python client safe_dump temp_file_name fuel KEEP_LIST
                zone_name target_alias dryrun w) as Hrun.
  rewrite Hzone, (get_all_records_answers client (Id zone) fuel ps None Hans Hfuel)
    in Hrun.
  simpl last_records in Hrun. rewrite app_nil_r in Hrun. exact Hrun.
Qed.

Lemma cleanup_deletes_candidates (zone : hosted_zone)
    (record_set : list record) (dryrun : bool) (w : world) :
  get_hosted_zone_by_name client zone_name = Some zone ->
  get_all_records_in_zone client fuel (Id zone) = Return record_set ->
  let w' := (r53_cleanup python client safe_dump temp_file_name fuel KEEP_LIST
               zone_name target_alias dryrun w).2 in
  exists calls,
    submissions (events w') = submissions (events w) ++ calls
    /\ Forall (fun c =>
                 Forall (deletes_candidate zone KEEP_LIST target_alias record_set)
                   (Changes c.2)) calls.
Proof.
  intros Hzone Hlist w'. subst w'.
  pose proof (r53_cleanup_run python client safe_dump temp_file_name fuel KEEP_LIST
                zone_name target_alias dryrun w) as Hrun.
  rewrite Hzone, Hlist in Hrun. cbv zeta in Hrun. rewrite Hrun.
  set (to_delete := candidates zone KEEP_LIST target_alias record_set).
  destruct python.
  2: { exists []. cbn [snd]. unfold after_temp_file. cbn [events].
       rewrite submissions_app. simpl. split; [reflexivity | constructor]. }
  destruct dryrun.
  - exists []. cbn [snd]. unfold after_snapshot. cbn [events].
    rewrite submissions_app. simpl. split; [reflexivity | constructor].
  - destruct (delete_records_post client fuel to_delete
                (after_snapshot temp_file_name (safe_dump to_delete) w))
      as (_ & calls & cs & Hev & Hsub & Hpre & _).
    exists calls. split.
    + rewrite Hev. unfold after_snapshot. cbn [events].
      rewrite !submissions_app. simpl. rewrite app_nil_r.
      now rewrite submissions_calls.
    + destruct Hpre as [more Hmore].
      assert (Hin : forall chunk, In chunk cs -> forall R, In R chunk -> In R to_delete).
      { intros chunk Hc R HR. apply (in_chunks chunk_len to_delete chunk R chunk_len_pos);
          [| exact HR]. rewrite Hmore. apply in_or_app. now left. }
      clear Hmore Hev. induction Hsub as [|c chunk calls cs (_ & Hc & _) _ IH];
        constructor.
      * assert (Hchunk : forall R, In R chunk -> In R to_delete).
        { intros R HR. apply (Hin chunk); [now left | exact HR]. }
        clear IH Hin. induction Hc as [|ch R chs rs [Hact Hd] _ IH']; constructor.
        -- split; [exact Hact |]. exists R.
           specialize (Hchunk R (or_introl eq_refl)).
           unfold to_delete in Hchunk. rewrite candidates_filter in Hchunk.
           apply List.filter_In in Hchunk. destruct Hchunk as [HR Hcand]. auto.
        -- apply IH'. intros R' HR'. apply Hchunk. now right.
      * apply IH. intros chunk' Hc' R HR. apply (Hin chunk'); [now right | exact HR].
Qed.

(** X9: [r53_cleanup] deletes nothing but candidates.  Whatever the
    provider answers to the change calls, every change it is sent is a
    DELETE that describes a record of the listed set which passes the
    filter: type ['A'], not the zone's own name, not in [KEEP_LIST], alias
    target equal to the target alias. *)
Theorem only_candidates_are_deleted (zone : hosted_zone)
    (record_set : list record) (dryrun : bool) (w : world) :
  get_hosted_zone_by_name client zone_name = Some zone ->
  get_all_records_in_zone client fuel (Id zone) = Return record_set ->
  let w' := (r53_cleanup python client safe_dump temp_file_name fuel KEEP_LIST
               zone_name target_alias dryrun w).2 in
  exists calls,
    submissions (events w') = submissions (events w) ++ calls
    /\ Forall (fun c =>
                 Forall (deletes_candidate zone KEEP_LIST target_alias record_set)
                   (Changes c.2)) calls.
Proof. apply cleanup_deletes_candidates. Qed.

(** X10: under Python 3 the snapshot write stops every run that reaches
    it.  Once the zone is found and listed, [r53_cleanup] raises
    [TypeError], with or without [dryrun]: it has created the temporary
    file, which stays behind empty, it has not created or replaced
    [temp_file_name + '.yaml'], and it has sent nothing to the provider. *)
Theorem cleanup_stops_at_snapshot_write (zone : hosted_zone)
    (record_set : list record) (dryrun : bool) (w : world) :
  get_hosted_zone_by_name client zone_name = Some zone ->
  get_all_records_in_zone client fuel (Id zone) = Return record_set ->
  let run := r53_cleanup Python3 client safe_dump temp_file_name fuel KEEP_LIST
               zone_name target_alias dryrun w in
  run.1 = Raise TypeError
  /\ events run.2 = events w ++ [EvCreate temp_file_name]
  /\ files run.2 !! temp_file_name = Some ""
  /\ files run.2 !! (temp_file_name +:+ ".yaml")
     = files w !! (temp_file_name +:+ ".yaml")
  /\ submissions (events run.2) = submissions (events w).
Proof.
  intros Hzone Hlist run. subst run.
  pose proof (r53_cleanup_run Python3 client safe_dump temp_file_name fuel KEEP_LIST
                zone_name target_alias dryrun w) as Hrun.
  rewrite Hzone, Hlist in Hrun. cbv zeta in Hrun. rewrite Hrun. cbn [fst snd].
  unfold after_temp_file. cbn [files events].
  split; [reflexivity |]. split; [reflexivity |].
  split; [apply lookup_insert_eq |].
  split.
  - apply lookup_insert_ne. apply temp_name_differs.
  - rewrite submissions_app. simpl. now rewrite app_nil_r.
Qed.

End CleanupExtras.

Lemma cleanup_without_zone_raises_witness :
  r53_cleanup Python3
    (ClientOf None (fun _ => None) (fun _ _ => None) (fun _ _ => true))
    Scenario.toy_dump "/tmp/tmpk3v9" 1 [] "example.com"
    "old-elb.us-east-1.elb.amazonaws.com" false Scenario.empty_world
  = (Raise TypeError, Scenario.empty_world).
Proof.
  apply (cleanup_without_zone_raises Python3
           (ClientOf None (fun _ => None) (fun _ _ => None) (fun _ _ => true))).
  left. reflexivity.
Defined.

(** The second page cannot be fetched: under Python 3 the run goes on to
    the snapshot all the same, and stops there. *)
Lemma cleanup_continues_after_listing_error_witness :
  r53_cleanup Python3 Scenario.flaky_client Scenario.toy_dump "/tmp/tmpk3v9" 1 []
    "example.com" "old-elb.us-east-1.elb.amazonaws.com" false Scenario.empty_world
  = (Raise TypeError, after_temp_file "/tmp/tmpk3v9" Scenario.empty_world).
Proof.
  apply (cleanup_continues_after_listing_error Python3 Scenario.flaky_client
           Scenario.toy_dump "/tmp/tmpk3v9" 1 [] "example.com"
           "old-elb.us-east-1.elb.amazonaws.com" Scenario.the_zone
           [PageOf [Scenario.rec_www] true (Some "api.example.com.")] false
           Scenario.empty_world).
  - vm_compute. reflexivity.
  - simpl. split; [reflexivity |]. split; [reflexivity |].
    exists "api.example.com.". split; [reflexivity |]. split; [reflexivity | exact I].
  - simpl. lia.
Defined.

Lemma only_candidates_are_deleted_witness :
  let record_set := [Scenario.rec_apex; Scenario.rec_www; Scenario.rec_mx;
                     Scenario.rec_api] in
  let w' := (r53_cleanup Python3 (Scenario.one_page_client record_set)
               Scenario.toy_dump
               "/tmp/tmpk3v9" 1 ["api.example.com."] "example.com"
               "old-elb.us-east-1.elb.amazonaws.com" false Scenario.empty_world).2 in
  exists calls,
    submissions (events w') = submissions (events Scenario.empty_world) ++ calls
    /\ Forall (fun c =>
                 Forall (deletes_candidate Scenario.the_zone ["api.example.com."]
                           "old-elb.us-east-1.elb.amazonaws.com" record_set)
                   (Changes c.2)) calls.
Proof.
  apply (only_candidates_are_deleted Python3
           (Scenario.one_page_client
              [Scenario.rec_apex; Scenario.rec_www; Scenario.rec_mx; Scenario.rec_api])
           Scenario.toy_dump "/tmp/tmpk3v9" 1 ["api.example.com."] "example.com"
           "old-elb.us-east-1.elb.amazonaws.com" Scenario.the_zone
           [Scenario.rec_apex; Scenario.rec_www; Scenario.rec_mx; Scenario.rec_api]
           false Scenario.empty_world).
  - vm_compute. reflexivity.
  - vm_compute. reflexivity.
Defined.

Lemma cleanup_stops_at_snapshot_write_witness :
  let record_set := [Scenario.rec_apex; Scenario.rec_www; Scenario.rec_mx] in
  let w := WorldOf {[ "/tmp/tmpk3v9.yaml" := "an older snapshot" ]} [] in
  let run := r53_cleanup Python3 (Scenario.one_page_client record_set)
               Scenario.toy_dump "/tmp/tmpk3v9" 1 [] "example.com"
               "old-elb.us-east-1.elb.amazonaws.com" false w in
  run.1 = Raise TypeError
  /\ events run.2 = events w ++ [EvCreate "/tmp/tmpk3v9"]
  /\ files run.2 !! "/tmp/tmpk3v9" = Some ""
  /\ files run.2 !! ("/tmp/tmpk3v9" +:+ ".yaml")
     = files w !! ("/tmp/tmpk3v9" +:+ ".yaml")
  /\ submissions (events run.2) = submissions (events w).
Proof.
  apply (cleanup_stops_at_snapshot_write
           (Scenario.one_page_client
              [Scenario.rec_apex; Scenario.rec_www; Scenario.rec_mx])
           Scenario.toy_dump "/tmp/tmpk3v9" 1 [] "example.com"
           "old-elb.us-east-1.elb.amazonaws.com" Scenario.the_zone
           [Scenario.rec_apex; Scenario.rec_www; Scenario.rec_mx] false
           (WorldOf {[ "/tmp/tmpk3v9.yaml" := "an older snapshot" ]} [])).
  - vm_compute. reflexivity.
  - vm_compute. reflexivity.
Defined.

(** ** Delete, then restore *)

(** X11: a restore mirrors a delete.  When the providers accept every
    batch and every record has an alias target, [delete_records] on a list
    and [restore_deleted_records] on a snapshot file that loads as the same
    list both return, and the UPSERT calls of the restore are, one for one
    and in order, the DELETE calls of the delete: same zone id, same record
    descriptors. *)
Theorem restore_mirrors_delete (client client' : r53_client)
    (safe_load : string -> document) (fuel fuel' : nat)
    (records : list record) (file_path content : string) (w w0 : world) :
  Forall has_alias records ->
  (forall z b, change_resource_record_sets client z b = true) ->
  (forall z b, change_resource_record_sets client' z b = true) ->
  Py.len records <= 100 * Z.of_nat fuel ->
  Py.len records <= 100 * Z.of_nat fuel' ->
  files w0 !! file_path = Some content ->
  safe_load content = DocRecords records ->
  let run1 := delete_records client fuel records w in
  let run2 := restore_deleted_records client' safe_load fuel' file_path w0 in
  run1.1 = Return tt
  /\ run2.1 = Return tt
  /\ exists deleted restored,
       submissions (events run1.2) = submissions (events w) ++ deleted
       /\ submissions (events run2.2) = submissions (events w0) ++ restored
       /\ Forall2 same_call_but_action deleted restored
       /\ batched DELETE records deleted
       /\ batched UPSERT records restored.
Proof.
  intros Hall Hacc Hacc' Hfuel Hfuel' Hfile Hload run1 run2.
  destruct (change_loop_success_tight client DELETE "Deleting resource records"
              records fuel w Hall Hacc Hfuel)
    as (w1 & deleted & Hdel & _ & Hev1 & Hsub1).
  destruct (change_loop_success_tight client' UPSERT "Restoring resource records"
              records fuel' w0 Hall Hacc' Hfuel')
    as (w2 & restored & Hres & _ & Hev2 & Hsub2).
  assert (Hrun1 : run1 = (Return tt, w1)) by exact Hdel.
  assert (Hrun2 : run2 = (Return tt, w2)).
  { subst run2.
    rewrite (restore_reads client' safe_load fuel' _ _ _ w0 Hfile Hload). exact Hres. }
  rewrite Hrun1, Hrun2. cbn [fst snd].
  split; [reflexivity |]. split; [reflexivity |].
  exists deleted, restored.
  split; [rewrite Hev1, submissions_app; now rewrite submissions_calls |].
  split; [rewrite Hev2, submissions_app; now rewrite submissions_calls |].
  split; [eapply submits_same_calls; eassumption |].
  split; eapply submits_batched; eassumption.
Qed.

Lemma restore_mirrors_delete_witness :
  let w0 := WorldOf {[ "/tmp/tmpk3v9.yaml" := Scenario.toy_dump Scenario.many_records ]} [] in
  let run1 := delete_records (Scenario.one_page_client []) 2 Scenario.many_records
                Scenario.empty_world in
  let run2 := restore_deleted_records Scenario.two_page_client Scenario.toy_load 2
                "/tmp/tmpk3v9.yaml" w0 in
  run1.1 = Return tt
  /\ run2.1 = Return tt
  /\ exists deleted restored,
       submissions (events run1.2)
       = submissions (events Scenario.empty_world) ++ deleted
       /\ submissions (events run2.2) = submissions (events w0) ++ restored
       /\ Forall2 same_call_but_action deleted restored
       /\ batched DELETE Scenario.many_records deleted
       /\ batched UPSERT Scenario.many_records restored.
Proof.
  assert (Hall : Forall has_alias Scenario.many_records).
  { apply Forall_forall. intros r Hr. apply list_elem_of_In, in_map_iff in Hr.
    destruct Hr as (i & <- & _). now eexists. }
  apply (restore_mirrors_delete (Scenario.one_page_client []) Scenario.two_page_client
           Scenario.toy_load 2 2 Scenario.many_records "/tmp/tmpk3v9.yaml"
           (Scenario.toy_dump Scenario.many_records) Scenario.empty_world
           (WorldOf {[ "/tmp/tmpk3v9.yaml" := Scenario.toy_dump Scenario.many_records ]} [])
           Hall).
  - intros z b. reflexivity.
  - intros z b. reflexivity.
  - vm_compute. discriminate.
  - vm_compute. discriminate.
  - apply lookup_singleton_eq.
  - vm_compute. reflexivity.
Defined.

(** ** The keep list *)

Lemma candidates_avoid_keep_list (zone : hosted_zone) (KEEP_LIST : list string)
    (target_alias : string) (record_set : list record) (name : string) :
  In name KEEP_LIST ->
  Forall (fun R => Name R <> name)
    (candidates zone KEEP_LIST target_alias record_set).
Proof.
  intros Hin. apply Forall_forall. intros R HR Hname.
  apply list_elem_of_In in HR. rewrite candidates_filter in HR.
  apply List.filter_In in HR. destruct HR as [_ HR].
  unfold is_candidate in HR.
  assert (Hk : Py.contains (Name R) KEEP_LIST = true).
  { apply contains_In. now rewrite Hname. }
  rewrite Hk in HR. simpl in HR. rewrite andb_false_r in HR. discriminate.
Qed.

(** X12: a name on the keep list protects the record of that name in the
    zone.  After [expand_keep_list zone_name], no record called
    [x + '.' + zone_name] (trailing dot enforced) with [x] on the list is
    ever selected by the filter, whatever its type and alias target. *)
Theorem keep_list_protects (zone : hosted_zone) (KEEP_LIST : list string)
    (zone_name target_alias : string) (record_set : list record) (x : string) :
  In x KEEP_LIST ->
  Forall (fun R => Name R <> (x +:+ ".") +:+ with_dot zone_name)
    (candidates zone (expand_keep_list zone_name KEEP_LIST) target_alias record_set).
Proof.
  intros Hin. apply candidates_avoid_keep_list.
  unfold expand_keep_list. cbv zeta.
  apply (in_map (fun x => (x +:+ ".") +:+ with_dot zone_name)). exact Hin.
Qed.

Lemma keep_list_protects_witness :
  Forall (fun R => Name R <> ("api" +:+ ".") +:+ with_dot "example.com")
    (candidates Scenario.the_zone (expand_keep_list "example.com" ["www"; "api"])
       "old-elb.us-east-1.elb.amazonaws.com"
       [Scenario.rec_apex; Scenario.rec_www; Scenario.rec_api]).
Proof.
  apply (keep_list_protects Scenario.the_zone ["www"; "api"] "example.com"
           "old-elb.us-east-1.elb.amazonaws.com"
           [Scenario.rec_apex; Scenario.rec_www; Scenario.rec_api] "api").
  simpl. auto.
Defined.

(** ** The script body *)

Lemma add_to_keep_list_map (KEEP_LIST items : list string) :
  add_to_keep_list KEEP_LIST items = KEEP_LIST ++ map (Py.replace "*" "\052") items.
Proof.
  unfold add_to_keep_list. revert KEEP_LIST.
  induction items as [|item items IH]; intros K; simpl.
  - now rewrite app_nil_r.
  - rewrite IH. now rewrite <- app_assoc.
Qed.

Lemma check_credential_cases (key : string) (arg : option string)
    (environ : gmap string string) :
  check_credential key arg environ
  = if Py.truthy (environ !! key) then Return environ
    else match arg with
         | Some v => if Py.truthy arg then Return (<[key := v]> environ)
                     else Raise SystemExit
         | None => Raise SystemExit
         end.
Proof.
  unfold check_credential.
  destruct (Py.truthy (environ !! key)); simpl; [reflexivity |].
  destruct arg as [v|]; simpl; [| reflexivity].
  now destruct (negb (String.eqb v "")).
Qed.

Lemma truthy_some (o : option string) :
  Py.truthy o = true <-> exists s, o = Some s /\ s <> "".
Proof.
  unfold Py.truthy. destruct o as [s|].
  - destruct (String.eqb_spec s "") as [->|Hne]; simpl.
    + split; [discriminate |]. intros (s & [= <-] & H). congruence.
    + split; [eauto | reflexivity].
  - split; [discriminate |]. intros (s & H & _). discriminate.
Qed.

Section MainExtras.

Variable python : interpreter.
Variable client : r53_client.
Variable safe_dump : list record -> string.
Variable safe_load : string -> document.
Variable temp_file_name : string.
Variable fuel : nat.

(** The keep list [dispatch] hands to [r53_cleanup]. *)
Lemma dispatch_cleanup (args : Args.t) (zone_name target_alias : string) (w : world) :
  Py.truthy (Args.restore_file args) = false ->
  Args.zone_name args = Some zone_name -> zone_name <> "" ->
  Args.target_alias args = Some target_alias -> target_alias <> "" ->
  dispatch python client safe_dump safe_load temp_file_name fuel args w
  = r53_cleanup python client safe_dump temp_file_name fuel
      (expand_keep_list zone_name
         (map (Py.replace "*" "\052") (default [] (Args.keep_list args))))
      zone_name target_alias (Args.dryrun args) w.
Proof.
  intros Hrestore Hzone Hzn Htarget Ht. unfold dispatch.
  rewrite Hrestore, Hzone, Htarget.
  assert (Hz : Py.truthy (Some zone_name) = true) by (apply truthy_some; eauto).
  assert (Hta : Py.truthy (Some target_alias) = true) by (apply truthy_some; eauto).
  rewrite Hz, Hta. cbn [negb]. cbv zeta.
  unfold KEEP_LIST_initial.
  destruct (Args.keep_list args) as [[|item items]|]; simpl Py.truthy_list;
    cbn [default].
  - reflexivity.
  - rewrite add_to_keep_list_map. cbn [app].
    set (K := map (Py.replace "*" "\052") (item :: items)).
    replace (Py.len K >? 0) with true; [reflexivity |].
    symmetry. apply Z.gtb_lt. subst K. unfold Py.len. simpl. lia.
  - reflexivity.
Qed.

Lemma main_with_credentials (environ : gmap string string) (args : Args.t) (w : world) :
  Py.truthy (environ !! "AWS_ACCESS_KEY_ID")
  || Py.truthy (Args.aws_access_key args) = true ->
  Py.truthy (environ !! "AWS_SECRET_ACCESS_KEY")
  || Py.truthy (Args.aws_secret_key args) = true ->
  main python client safe_dump safe_load temp_file_name fuel environ args w
  = dispatch python client safe_dump safe_load temp_file_name fuel args w.
Proof.
  intros Hid Hsecret. unfold main. rewrite check_credential_cases.
  assert (Hsec : forall env',
             env' !! "AWS_SECRET_ACCESS_KEY" = environ !! "AWS_SECRET_ACCESS_KEY" ->
             exists env'',
               check_credential "AWS_SECRET_ACCESS_KEY" (Args.aws_secret_key args) env'
               = Return env'').
  { intros env' Heq. rewrite check_credential_cases, Heq.
    destruct (Py.truthy (environ !! "AWS_SECRET_ACCESS_KEY")); [eauto |].
    simpl in Hsecret. rewrite Hsecret.
    destruct (Args.aws_secret_key args); [eauto | discriminate]. }
  destruct (Py.truthy (environ !! "AWS_ACCESS_KEY_ID")) eqn:E1.
  - destruct (Hsec environ eq_refl) as [env'' ->]. reflexivity.
  - simpl in Hid. rewrite Hid.
    destruct (Args.aws_access_key args) as [v|]; [| discriminate].
    destruct (Hsec (<[ "AWS_ACCESS_KEY_ID" := v ]> environ)) as [env'' ->];
      [now rewrite lookup_insert_ne by discriminate | reflexivity].
Qed.

Lemma main_exits_without_credentials (environ : gmap string string) (args : Args.t)
    (w : world) :
  (Py.truthy (environ !! "AWS_ACCESS_KEY_ID") = false
   /\ Py.truthy (Args.aws_access_key args) = false)
  \/ (Py.truthy (environ !! "AWS_SECRET_ACCESS_KEY") = false
      /\ Py.truthy (Args.aws_secret_key args) = false) ->
  main python client safe_dump safe_load temp_file_name fuel environ args w
  = (Raise SystemExit, w).
Proof.
  intros H. unfold main. rewrite check_credential_cases.
  destruct H as [[E1 A1] | [E2 A2]].
  - rewrite E1, A1. now destruct (Args.aws_access_key args).
  - assert (Hsec : forall env',
               env' !! "AWS_SECRET_ACCESS_KEY" = environ !! "AWS_SECRET_ACCESS_KEY" ->
               check_credential "AWS_SECRET_ACCESS_KEY" (Args.aws_secret_key args) env'
               = Raise SystemExit).
    { intros env' Heq. rewrite check_credential_cases, Heq, E2, A2.
      now destruct (Args.aws_secret_key args). }
    destruct (Py.truthy (environ !! "AWS_ACCESS_KEY_ID")).
    + now rewrite (Hsec environ eq_refl).
    + destruct (Args.aws_access_key args) as [v|]; [| reflexivity].
      destruct (Py.truthy (Some v)); [| reflexivity].
      rewrite (Hsec (<[ "AWS_ACCESS_KEY_ID" := v ]> environ)); [reflexivity |].
      now rewrite lookup_insert_ne by discriminate.
Qed.

(** X13: without credentials the script stops first.  When the access key
    id, or the secret access key, is neither in the environment nor on the
    command line (or is empty there), [main] ends in [exit(1)] before any
    provider call and before the snapshot is created, written or renamed,
    whatever else was asked. *)
Theorem main_requires_credentials (environ : gmap string string) (args : Args.t)
    (w : world) :
  (Py.truthy (environ !! "AWS_ACCESS_KEY_ID") = false
   /\ Py.truthy (Args.aws_access_key args) = false)
  \/ (Py.truthy (environ !! "AWS_SECRET_ACCESS_KEY") = false
      /\ Py.truthy (Args.aws_secret_key args) = false) ->
  let run := main python client safe_dump safe_load temp_file_name fuel environ
               args w in
  run.1 = Raise SystemExit /\ events run.2 = events w.
Proof.
  intros H run. subst run.
  now rewrite (main_exits_without_credentials environ args w H).
Qed.

(** X14: with credentials at hand, [main] runs exactly one workflow.  A
    non-empty [--restore] path wins over every other option and runs
    [restore_deleted_records]; otherwise a missing zone name or target alias
    ends in [exit(1)] with nothing done; otherwise [r53_cleanup] runs with
    the keep list made of every [--keep-list] item, its stars replaced by
    the four characters of a backslash and 052, followed by a dot and the
    zone name. *)
Theorem main_runs_one_workflow (environ : gmap string string) (args : Args.t)
    (w : world) :
  Py.truthy (environ !! "AWS_ACCESS_KEY_ID")
  || Py.truthy (Args.aws_access_key args) = true ->
  Py.truthy (environ !! "AWS_SECRET_ACCESS_KEY")
  || Py.truthy (Args.aws_secret_key args) = true ->
  (forall file_path,
      Args.restore_file args = Some file_path -> file_path <> "" ->
      main python client safe_dump safe_load temp_file_name fuel environ args w
      = restore_deleted_records client safe_load fuel file_path w)
  /\ (Py.truthy (Args.restore_file args) = false ->
      Py.truthy (Args.zone_name args) = false
      \/ Py.truthy (Args.target_alias args) = false ->
      main python client safe_dump safe_load temp_file_name fuel environ args w
      = (Raise SystemExit, w))
  /\ (forall zone_name target_alias,
        Py.truthy (Args.restore_file args) = false ->
        Args.zone_name args = Some zone_name -> zone_name <> "" ->
        Args.target_alias args = Some target_alias -> target_alias <> "" ->
        main python client safe_dump safe_load temp_file_name fuel environ args w
        = r53_cleanup python client safe_dump temp_file_name fuel
            (expand_keep_list zone_name
               (map (Py.replace "*" "\052") (default [] (Args.keep_list args))))
            zone_name target_alias (Args.dryrun args) w).
Proof.
  intros Hid Hsecret. rewrite (main_with_credentials environ args w Hid Hsecret).
  split; [| split].
  - intros file_path Hfile Hne. unfold dispatch. rewrite Hfile.
    replace (Py.truthy (Some file_path)) with true; [reflexivity |].
    symmetry. apply truthy_some. eauto.
  - intros Hrestore H. unfold dispatch. rewrite Hrestore.
    destruct H as [-> | H]; [reflexivity |].
    destruct (Py.truthy (Args.zone_name args)); [| reflexivity].
    now rewrite H.
  - intros zone_name target_alias. apply dispatch_cleanup.
Qed.

End MainExtras.

Lemma main_requires_credentials_witness :
  let run := main Python3 (Scenario.one_page_client [Scenario.rec_www])
               Scenario.toy_dump Scenario.toy_load "/tmp/tmpk3v9" 1 ∅
               Scenario.cleanup_args Scenario.empty_world in
  run.1 = Raise SystemExit /\ events run.2 = events Scenario.empty_world.
Proof.
  apply (main_requires_credentials Python3
           (Scenario.one_page_client [Scenario.rec_www])
           Scenario.toy_dump Scenario.toy_load "/tmp/tmpk3v9" 1 ∅
           Scenario.cleanup_args Scenario.empty_world).
  left. split; reflexivity.
Defined.

Lemma main_runs_one_workflow_witness :
  main Python3 (Scenario.one_page_client [Scenario.rec_www]) Scenario.toy_dump
    Scenario.toy_load "/tmp/tmpk3v9" 1 Scenario.with_keys Scenario.cleanup_args
    Scenario.empty_world
  = r53_cleanup Python3 (Scenario.one_page_client [Scenario.rec_www])
      Scenario.toy_dump "/tmp/tmpk3v9" 1 ["api.example.com."; "\052.dev.example.com."]
      "example.com" "old-elb.us-east-1.elb.amazonaws.com" false Scenario.empty_world.
Proof.
  apply (proj2 (proj2 (main_runs_one_workflow Python3
                         (Scenario.one_page_client [Scenario.rec_www])
                         Scenario.toy_dump Scenario.toy_load "/tmp/tmpk3v9" 1
                         Scenario.with_keys Scenario.cleanup_args Scenario.empty_world
                         ltac:(vm_compute; reflexivity) ltac:(vm_compute; reflexivity)))
           "example.com" "old-elb.us-east-1.elb.amazonaws.com");
    try reflexivity; discriminate.
Defined.

(** ** Kept names, from the command line to the provider *)

Lemma cleanup_avoids_kept_names (python : interpreter) (client : r53_client)
    (safe_dump : list record -> string) (temp_file_name : string) (fuel : nat)
    (KEEP_LIST : list string) (zone_name target_alias : string) (dryrun : bool)
    (w : world) (name : string) :
  In name KEEP_LIST ->
  let w' := (r53_cleanup python client safe_dump temp_file_name fuel KEEP_LIST
               zone_name target_alias dryrun w).2 in
  exists calls,
    submissions (events w') = submissions (events w) ++ calls
    /\ Forall (fun c =>
                 Forall (fun ch => rrs_Name (ResourceRecordSet ch) <> name)
                   (Changes c.2)) calls.
Proof.
  intros Hin w'. subst w'.
  pose proof (r53_cleanup_run python client safe_dump temp_file_name fuel KEEP_LIST
                zone_name target_alias dryrun w) as Hrun.
  destruct (get_hosted_zone_by_name client zone_name) as [zone|] eqn:Hzone.
  2: { rewrite Hrun. exists []. simpl. now rewrite app_nil_r. }
  destruct (get_all_records_in_zone client fuel (Id zone)) as [record_set|e|] eqn:Hlist.
  2, 3: rewrite Hrun; exists []; simpl; now rewrite app_nil_r.
  destruct (cleanup_deletes_candidates python client safe_dump temp_file_name fuel
              KEEP_LIST zone_name target_alias zone record_set dryrun w Hzone Hlist)
    as (calls & Hev & Hcalls).
  exists calls. split; [exact Hev |].
  eapply Forall_impl; [exact Hcalls |]. intros c Hc. simpl in Hc.
  eapply Forall_impl; [exact Hc |].
  intros ch (_ & R & _ & Hcand & Hn & _) Hname. simpl in Hname.
  unfold is_candidate in Hcand.
  assert (Hk : Py.contains (Name R) KEEP_LIST = true).
  { apply contains_In. rewrite <- Hn, Hname. exact Hin. }
  rewrite Hk in Hcand. simpl in Hcand. rewrite andb_false_r in Hcand. discriminate.
Qed.

Lemma main_or_exit (python : interpreter) (client : r53_client)
    (safe_dump : list record -> string)
    (safe_load : string -> document) (temp_file_name : string)
    (fuel : nat) (environ : gmap string string) (args : Args.t) (w : world) :
  main python client safe_dump safe_load temp_file_name fuel environ args w
  = dispatch python client safe_dump safe_load temp_file_name fuel args w
  \/ main python client safe_dump safe_load temp_file_name fuel environ args w
     = (Raise SystemExit, w).
Proof.
  destruct (Py.truthy (environ !! "AWS_ACCESS_KEY_ID")
            || Py.truthy (Args.aws_access_key args)) eqn:Hid.
  - destruct (Py.truthy (environ !! "AWS_SECRET_ACCESS_KEY")
              || Py.truthy (Args.aws_secret_key args)) eqn:Hsecret.
    + left. now apply main_with_credentials.
    + right. apply main_exits_without_credentials. right.
      now apply orb_false_iff in Hsecret.
  - right. apply main_exits_without_credentials. left.
    now apply orb_false_iff in Hid.
Qed.

(** X15: a name given with [--keep-list] is never deleted.  In a cleanup
    run of [main] (no [--restore] path), for every item [x] of the keep list
    and whatever the provider lists or answers, no change sent to the
    provider names the record [x' + '.' + zone_name], where [x'] is [x]
    with each star written as a backslash and 052 and the zone name has its
    trailing dot. *)
Theorem main_never_deletes_kept_names (python : interpreter)
    (client : r53_client)
    (safe_dump : list record -> string)
    (safe_load : string -> document) (temp_file_name : string)
    (fuel : nat) (environ : gmap string string) (args : Args.t) (w : world)
    (items : list string) (x zone_name : string) :
  Py.truthy (Args.restore_file args) = false ->
  Args.zone_name args = Some zone_name ->
  Args.keep_list args = Some items ->
  In x items ->
  let w' := (main python client safe_dump safe_load temp_file_name fuel environ
               args w).2 in
  exists calls,
    submissions (events w') = submissions (events w) ++ calls
    /\ Forall (fun c =>
                 Forall (fun ch =>
                           rrs_Name (ResourceRecordSet ch)
                           <> (Py.replace "*" "\052" x +:+ ".") +:+ with_dot zone_name)
                   (Changes c.2)) calls.
Proof.
  intros Hrestore Hzone Hkeep Hx w'. subst w'.
  assert (Hnothing : forall e : exn,
             exists calls,
               submissions (events (Raise e : outcome unit, w).2)
               = submissions (events w) ++ calls
               /\ Forall (fun c =>
                            Forall (fun ch =>
                                      rrs_Name (ResourceRecordSet ch)
                                      <> (Py.replace "*" "\052" x +:+ ".")
                                         +:+ with_dot zone_name)
                              (Changes c.2)) calls).
  { intros e. exists []. simpl. now rewrite app_nil_r. }
  destruct (main_or_exit python client safe_dump safe_load temp_file_name fuel environ
              args w)
    as [-> | ->]; [| apply Hnothing].
  destruct (String.eqb_spec zone_name "") as [Hempty|Hzn].
  { unfold dispatch. rewrite Hrestore, Hzone. subst zone_name. apply Hnothing. }
  destruct (Args.target_alias args) as [target_alias|] eqn:Htarget.
  2: { unfold dispatch. rewrite Hrestore, Hzone, Htarget.
       replace (Py.truthy (Some zone_name)) with true
         by (symmetry; apply truthy_some; eauto).
       apply Hnothing. }
  destruct (String.eqb_spec target_alias "") as [Hte|Hta].
  { unfold dispatch. rewrite Hrestore, Hzone, Htarget.
    replace (Py.truthy (Some zone_name)) with true
      by (symmetry; apply truthy_some; eauto).
    subst target_alias. apply Hnothing. }
  rewrite (dispatch_cleanup python client safe_dump safe_load temp_file_name fuel args
             zone_name target_alias w Hrestore Hzone Hzn Htarget Hta).
  apply cleanup_avoids_kept_names.
  rewrite Hkeep. cbn [default]. unfold expand_keep_list. cbv zeta.
  apply (in_map (fun x => (x +:+ ".") +:+ with_dot zone_name)).
  now apply in_map.
Qed.

(** The wildcard entry of the keep list protects the record Route 53 lists
    as [\052.dev.example.com.]. *)
Lemma main_never_deletes_kept_names_witness :
  let w' := (main Python3
               (Scenario.one_page_client
                  [Scenario.rec_www; Scenario.rec_api; Scenario.rec_wild])
               Scenario.toy_dump Scenario.toy_load "/tmp/tmpk3v9" 1
               Scenario.with_keys Scenario.cleanup_args Scenario.empty_world).2 in
  exists calls,
    submissions (events w') = submissions (events Scenario.empty_world) ++ calls
    /\ Forall (fun c =>
                 Forall (fun ch =>
                           rrs_Name (ResourceRecordSet ch)
                           <> (Py.replace "*" "\052" "*.dev" +:+ ".")
                              +:+ with_dot "example.com")
                   (Changes c.2)) calls.
Proof.
  apply (main_never_deletes_kept_names Python3
           (Scenario.one_page_client
              [Scenario.rec_www; Scenario.rec_api; Scenario.rec_wild])
           Scenario.toy_dump Scenario.toy_load "/tmp/tmpk3v9" 1
           Scenario.with_keys Scenario.cleanup_args Scenario.empty_world
           ["api"; "*.dev"] "*.dev" "example.com").
  - reflexivity.
  - reflexivity.
  - reflexivity.
  - simpl. auto.
Defined.
